(** * Supplemental payroll calculator (sas_payroll_app.py)

    A shallow embedding of the computational core of the payroll script:
    the shift-model table, the month configuration resolver, the date
    classifier, the monthly aggregator, the financial calculator, the bulk
    quick-entry form and the payment projection.

    Conventions.
    - Python [float] is IEEE 754 binary64: it is modelled by the kernel's
      primitive floats, whose operations round to nearest even as Python's do.
      Decimal literals denote the nearest binary64 value, as in Python.
    - Python [str] is modelled by [string]; a character is read as the code
      point 0..255 of the same number.
    - A Python [dict] is an insertion-ordered association list ([PyDict]).
    - A raised exception that nothing catches aborts the script run: such
      computations return [None] (or a named error where a claim needs it).
    - List objects that the configuration code shares by reference live in an
      explicit heap. *)

From Stdlib Require Import List String Ascii ZArith Lia Bool Floats DecimalString.
Import ListNotations.

Set Warnings "-inexact-float".
Local Open Scope string_scope.

(** ** Small option monad, for code that may raise *)

Definition bind {A B : Type} (x : option A) (k : A -> option B) : option B :=
  match x with
  | Some a => k a
  | None => None
  end.

Notation "x <- c ;; k" := (bind c (fun x => k))
  (at level 61, c at next level, right associativity).

Fixpoint foldM {A X : Type} (step : A -> X -> option A) (l : list X) (a : A)
  : option A :=
  match l with
  | [] => Some a
  | x :: r => a' <- step a x ;; foldM step r a'
  end.

Fixpoint mapM {X Y : Type} (g : X -> option Y) (l : list X) : option (list Y) :=
  match l with
  | [] => Some []
  | x :: r => y <- g x ;; ys <- mapM g r ;; Some (y :: ys)
  end.

(** ** Python dictionaries with string keys *)

Module PyDict.

Definition t (V : Type) : Type := list (string * V).

Section Ops.
Context {V : Type}.

(** [d.get(k)], [None] when the key is missing. *)
Fixpoint get (k : string) (d : t V) : option V :=
  match d with
  | [] => None
  | (k', v) :: r => if String.eqb k k' then Some v else get k r
  end.

(** [k in d] *)
Definition contains (k : string) (d : t V) : bool :=
  match get k d with
  | Some _ => true
  | None => false
  end.

(** [d.get(k, dflt)] *)
Definition get_default (k : string) (dflt : V) (d : t V) : V :=
  match get k d with
  | Some v => v
  | None => dflt
  end.

(** [d[k] = v]: an existing key keeps its position, a new one goes last. *)
Fixpoint set (k : string) (v : V) (d : t V) : t V :=
  match d with
  | [] => [(k, v)]
  | (k', v') :: r =>
      if String.eqb k k' then (k, v) :: r else (k', v') :: set k v r
  end.

(** In-place change of the object stored under [k] (the key is present
    wherever the code does this). *)
Fixpoint modify (k : string) (f : V -> V) (d : t V) : t V :=
  match d with
  | [] => []
  | (k', v') :: r =>
      if String.eqb k k' then (k', f v') :: r else (k', v') :: modify k f r
  end.

(** [del d[k]] *)
Fixpoint del (k : string) (d : t V) : t V :=
  match d with
  | [] => []
  | (k', v') :: r =>
      if String.eqb k k' then r else (k', v') :: del k r
  end.

Definition keys (d : t V) : list string := map fst d.

(** The idiom [if k not in d: d[k] = dflt] followed by an in-place
    change of [d[k]]. *)
Definition upsert (k : string) (dflt : V) (f : V -> V) (d : t V) : t V :=
  modify k f (if contains k d then d else set k dflt d).

End Ops.

End PyDict.

(** ** Lexicographic order on strings and [sorted] *)

Fixpoint str_leb (a b : string) : bool :=
  match a, b with
  | EmptyString, _ => true
  | String _ _, EmptyString => false
  | String x a', String y b' =>
      if (nat_of_ascii x <? nat_of_ascii y)%nat then true
      else if (nat_of_ascii y <? nat_of_ascii x)%nat then false
      else str_leb a' b'
  end.

Fixpoint insert_sorted (k : string) (l : list string) : list string :=
  match l with
  | [] => [k]
  | x :: r => if str_leb k x then k :: l else x :: insert_sorted k r
  end.

(** [sorted(l)] for a list of strings. *)
Definition sorted (l : list string) : list string :=
  fold_right insert_sorted [] l.

(** ** 1. Constants *)

Local Open Scope float_scope.

(** Hour contributions of a shift type. *)
Record ShiftModel : Type := mkModel {
  m_ca : float;
  m_labor : float;
  m_fest : float;
  m_loca : float
}.

Definition ACT_MODELS : PyDict.t ShiftModel :=
  [ ("TARDE",     mkModel 5.0 0.0  0.0  0.0);
    ("G_LJ",      mkModel 5.0 12.0 0.0  0.0);
    ("G_VIERNES", mkModel 5.0 4.0  8.0  0.0);
    ("G_SABADO",  mkModel 0.0 0.0  24.0 0.0);
    ("G_DOMINGO", mkModel 0.0 8.0  16.0 0.0);
    ("REFUERZO",  mkModel 7.5 0.0  0.0  10.0);
    ("G_24_MIX",  mkModel 5.0 8.0  16.0 0.0) ].

Definition SPECIAL_MD : list string :=
  ["01-01"; "01-06"; "02-28"; "10-07"; "12-25"].

Definition TYPICAL_NORMAL_BY_MONTH : PyDict.t float :=
  [ ("01", 1496.85); ("02", 1534.05); ("03", 1554.71); ("04", 1575.86);
    ("05", 1491.11); ("06", 1377.95); ("07", 1444.33); ("08", 1451.42);
    ("09", 1520.21); ("10", 1557.66); ("11", 1561.30); ("12", 1545.01) ].

(** A shift event, as stored in [st.session_state['acts']]. *)
Record Act : Type := mkAct {
  a_id : string;
  a_date : string;
  a_type : string;
  a_special : bool
}.

(** ** Monthly aggregation *)

Record Hours : Type := mkHours {
  h_labor : float;
  h_fest : float;
  h_ca : float;
  h_loca : float
}.

Record MonthAgg : Type := mkAgg {
  g_acts : list Act;
  g_hours : Hours
}.

(** [act['date'][:7]] *)
Definition year_month (date : string) : string := substring 0 7 date.

Definition new_month : MonthAgg := mkAgg [] (mkHours 0 0 0 0).

Definition append_act (act : Act) (e : MonthAgg) : MonthAgg :=
  mkAgg (g_acts e ++ [act]) (g_hours e).

Definition add_hours (m : ShiftModel) (e : MonthAgg) : MonthAgg :=
  let h := g_hours e in
  mkAgg (g_acts e)
        (mkHours (h_labor h + m_labor m) (h_fest h + m_fest m)
                 (h_ca h + m_ca m) (h_loca h + m_loca m)).

(** One iteration of the aggregation loop; [None] is the [KeyError] of
    [ACT_MODELS[act['type']]]. *)
Definition aggregate_step (agg : PyDict.t MonthAgg) (act : Act)
  : option (PyDict.t MonthAgg) :=
  let ym := year_month (a_date act) in
  let agg := PyDict.upsert ym new_month (append_act act) agg in
  m <- PyDict.get (a_type act) ACT_MODELS ;;
  Some (PyDict.modify ym (add_hours m) agg).

Definition aggregated_by_month (acts : list Act) : option (PyDict.t MonthAgg) :=
  foldM aggregate_step acts [].

(** ** The heap of shared list objects

    The solidarity tranche sequence is a Python list object.  The
    configuration code copies some of these lists and passes others on by
    reference, so they are modelled as cells of a heap; every other part of a
    configuration is rebuilt by the JSON round trip or is an immutable number
    and is modelled by value. *)

Record Tranche : Type := mkTranche {
  t_base : float;
  t_rate : float
}.

Definition loc : Type := nat.
Definition heap : Type := list (list Tranche).

Definition deref (h : heap) (l : loc) : list Tranche := nth l h [].

Definition alloc (v : list Tranche) (h : heap) : loc * heap :=
  (List.length h, (h ++ [v])%list).

(** Writing through a reference: [obj[:] = v], [obj.append(..)],
    [obj[i]['rate'] = ..] all end in replacing the content of the cell. *)
Fixpoint write (l : loc) (v : list Tranche) (h : heap) : heap :=
  match h, l with
  | [], _ => []
  | _ :: r, O => v :: r
  | x :: r, S l' => x :: write l' v r
  end.

(** ** Configuration *)

Record Rates : Type := mkRates {
  r_labor : float;
  r_fest : float;
  r_ca : float;
  r_locaFactor : float
}.

Record Bases : Type := mkBases {
  ccBaseWorker : float;
  ccRate : float;
  fpRate : float;
  solidarity : loc
}.

Record Config : Type := mkConfig {
  irpf : float;
  rates : Rates;
  prodFija : float;
  bases : Bases
}.

(** The list objects created when the module is loaded: the template's
    tranche list, then the lists of the three hardcoded overrides. *)
Definition TEMPLATE_SOLIDARITY : loc := 0%nat.
Definition MAR_SOLIDARITY : loc := 1%nat.
Definition APR_SOLIDARITY : loc := 2%nat.
Definition JUN_SOLIDARITY : loc := 3%nat.

Definition default_tranches : list Tranche :=
  [mkTranche 490.95 0.0077; mkTranche 1561.21 0.0083].

Definition module_heap : heap :=
  [ default_tranches;
    [mkTranche 490.95 0.0015; mkTranche 614.30 0.0017];
    [mkTranche 490.95 0.0015; mkTranche 1169.64 0.0017];
    [mkTranche 490.95 0.0015; mkTranche 1354.80 0.0017] ].

Definition DEFAULT_CONFIG_TEMPLATE : Config :=
  mkConfig 0.35
           (mkRates 27.07 29.47 47.11 0.5)
           733.42
           (mkBases 2151.30 0.0483 0.0010 TEMPLATE_SOLIDARITY).

(** An entry of [MONTHLY_OVERRIDES]: every key is optional. *)
Record BasesOverride : Type := mkBasesOver {
  o_ccBaseWorker : option float;
  o_solidarity : option loc
}.

Record MonthOverride : Type := mkOver {
  o_bases : option BasesOverride
}.

Definition MONTHLY_OVERRIDES : PyDict.t MonthOverride :=
  [ ("2025-03", mkOver (Some (mkBasesOver None (Some MAR_SOLIDARITY))));
    ("2025-04", mkOver (Some (mkBasesOver None (Some APR_SOLIDARITY))));
    ("2025-06", mkOver (Some (mkBasesOver (Some 2098.15) (Some JUN_SOLIDARITY)))) ].

(** A user's per-month patch, [st.session_state['month_configs'][ym]]. *)
Record UserConfig : Type := mkUser {
  u_irpf : option float;
  u_prodFija : option float
}.

(** The session state the core reads.  A key of [st.session_state] that may
    be missing is an [option]. *)
Record SessionState : Type := mkState {
  ss_acts : list Act;
  ss_month_configs : option (PyDict.t UserConfig);
  ss_normal_overrides : PyDict.t float;
  ss_global_irpf : option float
}.

(** [json.loads(json.dumps(cfg))]: numbers come back as they were, and the
    tranche list comes back as a new list object. *)
Definition json_roundtrip (cfg : Config) (h : heap) : Config * heap :=
  let (l, h') := alloc (deref h (solidarity (bases cfg))) h in
  let b := bases cfg in
  (mkConfig (irpf cfg) (rates cfg) (prodFija cfg)
            (mkBases (ccBaseWorker b) (ccRate b) (fpRate b) l), h').

Definition set_irpf (v : float) (cfg : Config) : Config :=
  mkConfig v (rates cfg) (prodFija cfg) (bases cfg).

Definition set_prodFija (v : float) (cfg : Config) : Config :=
  mkConfig (irpf cfg) (rates cfg) v (bases cfg).

Definition set_ccBaseWorker (v : float) (cfg : Config) : Config :=
  let b := bases cfg in
  mkConfig (irpf cfg) (rates cfg) (prodFija cfg)
           (mkBases v (ccRate b) (fpRate b) (solidarity b)).

(** [cfg['bases']['solidarity'] = obj]: the reference is stored, nothing is
    copied. *)
Definition set_solidarity (l : loc) (cfg : Config) : Config :=
  let b := bases cfg in
  mkConfig (irpf cfg) (rates cfg) (prodFija cfg)
           (mkBases (ccBaseWorker b) (ccRate b) (fpRate b) l).

Definition apply_opt {A : Type} (o : option A) (f : A -> Config -> Config)
  (cfg : Config) : Config :=
  match o with
  | Some v => f v cfg
  | None => cfg
  end.

Definition get_month_config (st : SessionState) (ym : string) (h : heap)
  : Config * heap :=
  let (cfg, h) := json_roundtrip DEFAULT_CONFIG_TEMPLATE h in
  (* 1. global user IRPF *)
  let cfg := apply_opt (ss_global_irpf st) (fun g => set_irpf (g / 100.0)) cfg in
  (* 2. hardcoded monthly overrides *)
  let cfg :=
    match PyDict.get ym MONTHLY_OVERRIDES with
    | Some over =>
        match o_bases over with
        | Some ob =>
            let cfg := apply_opt (o_ccBaseWorker ob) set_ccBaseWorker cfg in
            apply_opt (o_solidarity ob) set_solidarity cfg
        | None => cfg
        end
    | None => cfg
    end in
  (* 3. user month overrides *)
  let cfg :=
    match ss_month_configs st with
    | Some mc =>
        match PyDict.get ym mc with
        | Some user_cfg =>
            let cfg := apply_opt (u_irpf user_cfg) set_irpf cfg in
            apply_opt (u_prodFija user_cfg) set_prodFija cfg
        | None => cfg
        end
    | None => cfg
    end in
  (cfg, h).

(** ** Financial calculation *)

Record Accruals : Type := mkDev {
  dev024 : float;
  dev025 : float;
  dev180 : float;
  devPF : float;
  devTotal : float
}.

Record Deductions : Type := mkDesc {
  desc_IRPF : float;
  desc_CC : float;
  desc_FP : float;
  desc_Sol : float;
  desc_Total : float
}.

Record Financials : Type := mkFin {
  f_hours : Hours;
  f_dev : Accruals;
  f_desc : Deductions;
  f_neto : float;
  f_cfg : Config
}.

(** The three running sums of the loop over a month's acts. *)
Record DevAcc : Type := mkAcc {
  acc024 : float;
  acc025 : float;
  acc180 : float
}.

Definition dev_step (cfg : Config) (acc : DevAcc) (a : Act) : option DevAcc :=
  let loca_rate_val := r_labor (rates cfg) * r_locaFactor (rates cfg) in
  m <- PyDict.get (a_type a) ACT_MODELS ;;
  let factor := if a_special a then 2.0 else 1.0 in
  Some (mkAcc
    (acc024 acc + (m_labor m * r_labor (rates cfg) + m_loca m * loca_rate_val) * factor)
    (acc025 acc + (m_fest m * r_fest (rates cfg)) * factor)
    (acc180 acc + (m_ca m * r_ca (rates cfg)))).

Definition cuotSol_of (tranches : list Tranche) : float :=
  fold_left (fun s tramo => s + t_base tramo * t_rate tramo) tranches 0.0.

(** The body of the loop over [sorted_months] for one month. *)
Definition month_financials (st : SessionState) (ym : string) (data : MonthAgg)
  (h : heap) : option (Financials * heap) :=
  let (cfg, h) := get_month_config st ym h in
  acc <- foldM (dev_step cfg) (g_acts data) (mkAcc 0.0 0.0 0.0) ;;
  let devPF := prodFija cfg in
  let devTotal := acc024 acc + acc025 acc + acc180 acc + devPF in
  let ccBase := ccBaseWorker (bases cfg) in
  let cuotCC := ccBase * ccRate (bases cfg) in
  let cuotFP := ccBase * fpRate (bases cfg) in
  let cuotSol := cuotSol_of (deref h (solidarity (bases cfg))) in
  let irpf_amount := devTotal * irpf cfg in
  let total_descuentos := irpf_amount + cuotCC + cuotFP + cuotSol in
  let neto := devTotal - total_descuentos in
  Some (mkFin (g_hours data)
              (mkDev (acc024 acc) (acc025 acc) (acc180 acc) devPF devTotal)
              (mkDesc irpf_amount cuotCC cuotFP cuotSol total_descuentos)
              neto cfg, h).

Definition financials_step (st : SessionState) (agg : PyDict.t MonthAgg)
  (s : PyDict.t Financials * heap) (ym : string)
  : option (PyDict.t Financials * heap) :=
  let (fin, h) := s in
  data <- PyDict.get ym agg ;;
  r <- month_financials st ym data h ;;
  Some (PyDict.set ym (fst r) fin, snd r).

Definition sorted_months (agg : PyDict.t MonthAgg) : list string :=
  sorted (PyDict.keys agg).

Definition financials_by_month (st : SessionState) (agg : PyDict.t MonthAgg)
  (h : heap) : option (PyDict.t Financials * heap) :=
  foldM (financials_step st agg) (sorted_months agg) ([], h).

(** The whole recomputation of one script run, from the stored acts. *)
Definition compute (st : SessionState) (h : heap)
  : option (PyDict.t MonthAgg * PyDict.t Financials * heap) :=
  agg <- aggregated_by_month (ss_acts st) ;;
  r <- financials_by_month st agg h ;;
  Some (agg, fst r, snd r).

(** ** Python string and integer primitives used by the script *)

Local Open Scope Z_scope.

(** [str.isspace] on one character (code points below 256). *)
Definition is_space (c : ascii) : bool :=
  let n := Z.of_nat (nat_of_ascii c) in
  ((9 <=? n) && (n <=? 13)) || ((28 <=? n) && (n <=? 32))
  || (n =? 133) || (n =? 160).

Definition is_ascii_digit (c : ascii) : bool :=
  let n := Z.of_nat (nat_of_ascii c) in (48 <=? n) && (n <=? 57).

(** [str.isdigit] on one character: the decimal digits and the superscript
    digits of Latin-1. *)
Definition is_digit_char (c : ascii) : bool :=
  let n := Z.of_nat (nat_of_ascii c) in
  is_ascii_digit c || (n =? 178) || (n =? 179) || (n =? 185).

(** The string without its leading characters that satisfy [p]. *)
Fixpoint lstrip_by (p : ascii -> bool) (s : string) : string :=
  match s with
  | EmptyString => EmptyString
  | String c r => if p c then lstrip_by p r else s
  end.

(** The string without its trailing characters that satisfy [p]. *)
Fixpoint rstrip_by (p : ascii -> bool) (s : string) : string :=
  match s with
  | EmptyString => EmptyString
  | String c r =>
      match rstrip_by p r with
      | EmptyString => if p c then EmptyString else String c EmptyString
      | r' => String c r'
      end
  end.

(** [s.strip()] *)
Definition strip (s : string) : string := rstrip_by is_space (lstrip_by is_space s).

(** The white space [int] skips around a literal: that of [str.isspace]
    without the separators 0x1c to 0x1f, which make [int] raise. *)
Definition is_int_space (c : ascii) : bool :=
  let n := Z.of_nat (nat_of_ascii c) in
  ((9 <=? n) && (n <=? 13)) || (n =? 32) || (n =? 133) || (n =? 160).


Fixpoint all_chars (p : ascii -> bool) (s : string) : bool :=
  match s with
  | EmptyString => true
  | String c r => p c && all_chars p r
  end.

(** [s.isdigit()] *)
Definition isdigit (s : string) : bool :=
  match s with
  | EmptyString => false
  | _ => all_chars is_digit_char s
  end.

(** [s.split(sep)] for a one-character separator. *)
Fixpoint split (sep : ascii) (s : string) : list string :=
  match s with
  | EmptyString => [EmptyString]
  | String c r =>
      if Ascii.eqb c sep then EmptyString :: split sep r
      else match split sep r with
           | x :: xs => String c x :: xs
           | [] => [String c EmptyString]
           end
  end.

(** [s.replace(a, b)] for single characters. *)
Fixpoint replace_char (a b : ascii) (s : string) : string :=
  match s with
  | EmptyString => EmptyString
  | String c r => String (if Ascii.eqb c a then b else c) (replace_char a b r)
  end.

(** The default limit of CPython on the digits of an integer literal
    converted from a string. *)
Definition INT_MAX_STR_DIGITS : nat := 4300.

(** Digits with single underscores between them; the value and the number of
    digits read. *)
Fixpoint int_digits (s : string) (after_digit : bool) (acc : Z) (n : nat)
  : option (Z * nat) :=
  match s with
  | EmptyString => if after_digit then Some (acc, n) else None
  | String c r =>
      if is_ascii_digit c
      then int_digits r true (10 * acc + (Z.of_nat (nat_of_ascii c) - 48)) (S n)
      else if Ascii.eqb c "_"%char
           then if after_digit then int_digits r false acc n else None
           else None
  end.

(** [int(s)] for a string; [None] is [ValueError]. *)
Definition py_int (s : string) : option Z :=
  let body (neg : bool) (r : string) :=
    match int_digits r false 0 0 with
    | Some (v, n) =>
        if (n <=? INT_MAX_STR_DIGITS)%nat
        then Some (if neg then - v else v)
        else None
    | None => None
    end in
  match rstrip_by is_int_space (lstrip_by is_int_space s) with
  | String "+" r => body false r
  | String "-" r => body true r
  | r => body false r
  end.

(** [str(z)] for an integer: its decimal digits, with a minus sign when it
    is negative. *)
Definition str_int (z : Z) : string := NilZero.string_of_int (Z.to_int z).

(** [f"{z:0Wd}"]: sign-aware zero padding to width [w]. *)
Fixpoint zeros (k : nat) (s : string) : string :=
  match k with
  | O => s
  | S k' => String "0" (zeros k' s)
  end.

Definition fmt_0d (w : nat) (z : Z) : string :=
  let d := str_int (Z.abs z) in
  let sign := if z <? 0 then 1%nat else 0%nat in
  let body := zeros (w - sign - String.length d) d in
  if z <? 0 then String "-" body else body.

(** ['2025-05' -> '2025-06']; [None] is the [ValueError] of the unpacking or
    of [int]. *)
Definition next_month_str (ym_str : string) : option string :=
  match split "-" ym_str with
  | [ys; ms] =>
      y <- py_int ys ;;
      m <- py_int ms ;;
      let m := m + 1 in
      let (y, m) := if 12 <? m then (y + 1, 1) else (y, m) in
      Some (str_int y ++ "-" ++ fmt_0d 2 m)%string
  | _ => None
  end.

(** ** Dates *)

(** A [datetime.date]: only built by [date_new], which checks the fields. *)
Record PyDate : Type := mkDate {
  d_year : Z;
  d_month : Z;
  d_day : Z
}.

Definition is_leap (y : Z) : bool :=
  (y mod 4 =? 0) && (negb (y mod 100 =? 0) || (y mod 400 =? 0)).

Definition days_in_month (y m : Z) : Z :=
  if m =? 2 then (if is_leap y then 29 else 28)
  else if (m =? 4) || (m =? 6) || (m =? 9) || (m =? 11) then 30
  else 31.

Definition days_before_year (y : Z) : Z :=
  let y := y - 1 in y * 365 + y / 4 - y / 100 + y / 400.

Fixpoint days_before_month_aux (y : Z) (k : nat) : Z :=
  match k with
  | O => 0
  | S k' => days_before_month_aux y k' + days_in_month y (Z.of_nat k)
  end.

Definition days_before_month (y m : Z) : Z :=
  days_before_month_aux y (Z.to_nat (m - 1)).

Definition toordinal (d : PyDate) : Z :=
  days_before_year (d_year d) + days_before_month (d_year d) (d_month d) + d_day d.

(** [d.weekday()]: 0 is Monday, 6 is Sunday. *)
Definition weekday (d : PyDate) : Z := (toordinal d + 6) mod 7.

Definition C_INT_MAX : Z := 2147483647.
Definition C_INT_MIN : Z := -2147483648.

Inductive DateResult : Type :=
| DateOk (d : PyDate)
| DateValueError
| DateOverflowError.

Definition fits_c_int (z : Z) : bool := (C_INT_MIN <=? z) && (z <=? C_INT_MAX).

(** [datetime.date(y, m, d)]: CPython first converts the three arguments to
    C ints ([OverflowError] when one does not fit), then checks the ranges
    ([ValueError]). *)
Definition date_new (y m d : Z) : DateResult :=
  if negb (fits_c_int y && fits_c_int m && fits_c_int d) then DateOverflowError
  else if (1 <=? y) && (y <=? 9999) && (1 <=? m) && (m <=? 12)
          && (1 <=? d) && (d <=? days_in_month y m)
       then DateOk (mkDate y m d)
       else DateValueError.

(** [d.strftime("%Y-%m-%d")] and [d.strftime("%m-%d")], with the year
    zero-padded to four digits as the Python documentation gives it (a C
    library may drop the padding below the year 1000; the date widget does not
    reach such years). *)
Definition strftime_ymd (d : PyDate) : string :=
  (fmt_0d 4 (d_year d) ++ "-" ++ fmt_0d 2 (d_month d) ++ "-" ++ fmt_0d 2 (d_day d))%string.

Definition strftime_md (d : PyDate) : string :=
  (fmt_0d 2 (d_month d) ++ "-" ++ fmt_0d 2 (d_day d))%string.

Definition classify_date (d : PyDate) : string :=
  let wd := weekday d in
  if wd =? 6 then "G_DOMINGO"
  else if wd =? 5 then "G_SABADO"
  else if wd =? 4 then "G_VIERNES"
  else "G_LJ".

Definition str_in (s : string) (l : list string) : bool :=
  existsb (String.eqb s) l.

Definition is_special_date (d : PyDate) : bool := str_in (strftime_md d) SPECIAL_MD.

(** ** Bulk quick-entry (the "add_auto" form) *)

(** How the handling of the form ends. *)
Inductive BulkOutcome : Type :=
| NotHandled                 (* the text field was empty *)
| Reported (count : nat)     (* [st.success(f"Se han generado {count} ...")] *)
| Raised.                    (* an exception left the loop: nothing is reported *)

Section BulkEntry.

(** [str(uuid.uuid4())]: the [n]-th identifier drawn. *)
Variable uuid4 : nat -> string.

(** [[d.strip() for d in q_days.replace(';', ',').split(',')
      if d.strip().isdigit()]] *)
Definition days_list (q_days : string) : list string :=
  map strip
      (filter (fun d => isdigit (strip d))
              (split "," (replace_char ";" "," q_days))).

(** The loop over [days_list].  The acts appended so far stay in the
    session state whatever happens next. *)
Fixpoint bulk_loop (q_month : PyDate) (days : list string)
  (drawn : nat) (acts : list Act) (count : nat) : list Act * option nat :=
  match days with
  | [] => (acts, Some count)
  | d :: rest =>
      match py_int d with
      | None => bulk_loop q_month rest drawn acts count
      | Some n =>
          match date_new (d_year q_month) (d_month q_month) n with
          | DateOk target_date =>
              let t_type := classify_date target_date in
              let is_special := is_special_date target_date in
              let act := mkAct (uuid4 drawn) (strftime_ymd target_date)
                               t_type is_special in
              bulk_loop q_month rest (S drawn) (acts ++ [act]) (S count)
          | DateValueError => bulk_loop q_month rest drawn acts count
          | DateOverflowError => (acts, None)
          end
      end
  end.

(** The body of [if submitted_auto and q_days:], given that the button was
    pressed. *)
Definition submitted_auto (q_month : PyDate) (q_days : string)
  (drawn : nat) (acts : list Act) : list Act * BulkOutcome :=
  match q_days with
  | EmptyString => (acts, NotHandled)
  | _ =>
      match bulk_loop q_month (days_list q_days) drawn acts 0 with
      | (acts', Some count) => (acts', Reported count)
      | (acts', None) => (acts', Raised)
      end
  end.

End BulkEntry.

(** ** Payment projection *)

Local Open Scope float_scope.

Record Payment : Type := mkPayment {
  p_comp : float;
  p_from : list string
}.

Definition new_payment : Payment := mkPayment 0.0 [].

Definition add_comp (neto : float) (p : Payment) : Payment :=
  mkPayment (p_comp p + neto) (p_from p).

Definition append_from (sm : string) (p : Payment) : Payment :=
  mkPayment (p_comp p) (p_from p ++ [sm]).

Definition payments_step (fin : PyDict.t Financials) (payments : PyDict.t Payment)
  (sm : string) : option (PyDict.t Payment) :=
  pm <- next_month_str sm ;;
  f <- PyDict.get sm fin ;;
  let payments := PyDict.upsert pm new_payment (add_comp (f_neto f)) payments in
  Some (PyDict.modify pm (append_from sm) payments).

Definition payments (months : list string) (fin : PyDict.t Financials)
  : option (PyDict.t Payment) :=
  foldM (payments_step fin) months [].

(** A keyed Streamlit widget returns what the user left in it; before any
    interaction ([None]) it returns its [value] argument. *)
Definition widget {A : Type} (user : option A) (value : A) : A :=
  match user with
  | Some v => v
  | None => value
  end.

(** What the loop over [payment_months] shows for one month. *)
Record PaymentView : Type := mkView {
  v_normal : float;
  v_comp : float;
  v_total : float
}.

(** The "normal payroll" part of the loop body: the value used and the
    override table it leaves behind.  [None] is the [IndexError] of
    [pm.split('-')[1]]. *)
Definition normal_val (pm : string) (normal_overrides : PyDict.t float)
  (chk : option bool) (inp : option float) : option (float * PyDict.t float) :=
  match split "-" pm with
  | _ :: mm :: _ =>
      let typical_val := PyDict.get_default mm 1500.00 TYPICAL_NORMAL_BY_MONTH in
      let current_override := PyDict.get_default pm 0.0 normal_overrides in
      let use_manual := widget chk (0 <? current_override) in
      if use_manual then
        let normal_val :=
          widget inp (if 0 <? current_override then current_override else typical_val) in
        if negb (normal_val =? current_override)
        then Some (normal_val, PyDict.set pm normal_val normal_overrides)
        else Some (normal_val, normal_overrides)
      else
        Some (typical_val,
              if PyDict.contains pm normal_overrides
              then PyDict.del pm normal_overrides
              else normal_overrides)
  | _ => None
  end.

Definition payment_view (pm : string) (pay : PyDict.t Payment)
  (normal_overrides : PyDict.t float) (chk : option bool) (inp : option float)
  : option (PaymentView * PyDict.t float) :=
  p <- PyDict.get pm pay ;;
  r <- normal_val pm normal_overrides chk inp ;;
  let comp_val := p_comp p in
  Some (mkView (fst r) comp_val (fst r + comp_val), snd r).

(** ** Manual entry, deletion and the configuration editor *)

Local Open Scope float_scope.

(** The "add_manual" form, given that the button was pressed: the date comes
    from the date widget, the type from the select box over the keys of
    [ACT_MODELS]. *)
Definition add_manual (uuid4 : nat -> string) (d_date : PyDate) (d_type : string)
  (drawn : nat) (acts : list Act) : list Act :=
  let is_special := str_in (strftime_md d_date) SPECIAL_MD in
  let new_act := mkAct (uuid4 drawn) (strftime_ymd d_date) d_type is_special in
  (acts ++ [new_act])%list.

(** [[x for x in acts if x['id'] != to_del]] *)
Definition delete_act (to_del : string) (acts : list Act) : list Act :=
  filter (fun x => negb (String.eqb (a_id x) to_del)) acts.

(** The "Guardar cambios mes" button of the month editor; [None] is the
    [KeyError] of a session without ['month_configs']. *)
Definition save_month_config (sel_month : string) (new_m_irpf new_m_pf : float)
  (st : SessionState) : option SessionState :=
  mc <- ss_month_configs st ;;
  let mc := if PyDict.contains sel_month mc then mc
            else PyDict.set sel_month (mkUser None None) mc in
  let mc := PyDict.modify sel_month
              (fun u => mkUser (Some (new_m_irpf / 100.0)) (u_prodFija u)) mc in
  let mc := PyDict.modify sel_month
              (fun u => mkUser (u_irpf u) (Some new_m_pf)) mc in
  Some (mkState (ss_acts st) (Some mc) (ss_normal_overrides st) (ss_global_irpf st)).

(** The sidebar's global tax-rate input; [None] is the [KeyError] of a
    session without ['global_irpf']. *)
Definition set_global_irpf (new_irpf : float) (st : SessionState)
  : option SessionState :=
  g <- ss_global_irpf st ;;
  if negb (new_irpf =? g)
  then Some (mkState (ss_acts st) (ss_month_configs st) (ss_normal_overrides st)
                     (Some new_irpf))
  else Some st.

(** * Vocabulary of the properties *)

(** ** The state the script starts from *)

(** The acts preloaded when the session has none, with identifiers drawn from
    [uuid4]. *)
Definition initial_acts (uuid4 : nat -> string) : list Act :=
  [ mkAct (uuid4 0%nat) "2025-10-03" "G_VIERNES" false;
    mkAct (uuid4 1%nat) "2025-10-07" "G_24_MIX" true;
    mkAct (uuid4 2%nat) "2025-10-15" "G_LJ" false;
    mkAct (uuid4 3%nat) "2025-10-20" "G_LJ" false;
    mkAct (uuid4 4%nat) "2025-10-27" "G_LJ" false;
    mkAct (uuid4 5%nat) "2025-10-30" "TARDE" false ].

Definition initial_state (uuid4 : nat -> string) : SessionState :=
  mkState (initial_acts uuid4) (Some []) [] (Some 35.0).

(** A fixed stream of identifiers for the worked examples. *)
Definition sample_uuid4 (n : nat) : string :=
  ("act-" ++ str_int (Z.of_nat n))%string.

Definition with_acts (acts : list Act) (st : SessionState) : SessionState :=
  mkState acts (ss_month_configs st) (ss_normal_overrides st) (ss_global_irpf st).

(** ** Totals (C1) *)

(** The two totals are the sums of their lines and the net is their
    difference. *)
Definition totals_consistent (f : Financials) : Prop :=
  let dev := f_dev f in
  let desc := f_desc f in
  devTotal dev = dev024 dev + dev025 dev + dev180 dev + devPF dev
  /\ desc_Total desc = desc_IRPF desc + desc_CC desc + desc_FP desc + desc_Sol desc
  /\ f_neto f = devTotal dev - desc_Total desc.

(** ** Aggregation and line 180 (C5, C2) *)

(** The registry's entry for the type of an act. *)
Definition model_of (a : Act) : option ShiftModel :=
  PyDict.get (a_type a) ACT_MODELS.

(** Is the act filed under [ym]? *)
Definition in_month (ym : string) (a : Act) : bool :=
  String.eqb (year_month (a_date a)) ym.

(** The running hour sums, as the loop adds them. *)
Definition hours_sum (ms : list ShiftModel) (h0 : Hours) : Hours :=
  fold_left (fun h m => mkHours (h_labor h + m_labor m) (h_fest h + m_fest m)
                                (h_ca h + m_ca m) (h_loca h + m_loca m))
            ms h0.

(** Two acts that differ at most in their [special] flag. *)
Definition same_but_special (a b : Act) : Prop :=
  a_id a = a_id b /\ a_date a = a_date b /\ a_type a = a_type b.

(** The four hour sums are the sums, from 0, of the contributions [ms]. *)
Definition hour_sums_of (ms : list ShiftModel) (hs : Hours) : Prop :=
  h_labor hs = fold_left PrimFloat.add (map m_labor ms) 0
  /\ h_fest hs = fold_left PrimFloat.add (map m_fest ms) 0
  /\ h_ca hs = fold_left PrimFloat.add (map m_ca ms) 0
  /\ h_loca hs = fold_left PrimFloat.add (map m_loca ms) 0.

(** What the aggregate of [acts] has to be. *)
Definition aggregate_spec (acts : list Act) (agg : PyDict.t MonthAgg) : Prop :=
  (forall ym e, PyDict.get ym agg = Some e ->
     g_acts e = filter (in_month ym) acts
     /\ exists ms, mapM model_of (g_acts e) = Some ms /\ hour_sums_of ms (g_hours e))
  /\ (forall a, In a acts ->
        exists e, PyDict.get (year_month (a_date a)) agg = Some e /\ In a (g_acts e))
  /\ (forall acts', Forall2 same_but_special acts acts' ->
        exists agg', aggregated_by_month acts' = Some agg'
          /\ forall ym, option_map g_hours (PyDict.get ym agg')
                        = option_map g_hours (PyDict.get ym agg)).



Definition flip_special (a : Act) : Act :=
  mkAct (a_id a) (a_date a) (a_type a) (negb (a_special a)).

(** ** The 7 October scenario (C7) *)

(** The session with the single event of 7 October 2025 and nothing edited. *)
Definition october_7_state (id : string) : SessionState :=
  with_acts [mkAct id "2025-10-07" "G_24_MIX" true] (initial_state sample_uuid4).

Definition october_7_accruals (id : string) : option Accruals :=
  match compute (october_7_state id) module_heap with
  | Some (_, fin, _) => option_map f_dev (PyDict.get "2025-10" fin)
  | None => None
  end.

(** ** Configuration layering and sharing (C3, C6) *)

(** The heap still starts with the list objects made at module load. *)
Definition heap_extends (h0 h : heap) : Prop := exists ext, h = (h0 ++ ext)%list.

(** The tranche sequence a resolved configuration refers to. *)
Definition resolved_tranches (r : Config * heap) : list Tranche :=
  deref (snd r) (solidarity (bases (fst r))).

(** The hardcoded patch of a month and the user's patch of a month. *)
Definition hardcoded_bases (ym : string) : option BasesOverride :=
  match PyDict.get ym MONTHLY_OVERRIDES with
  | Some over => o_bases over
  | None => None
  end.

Definition user_patch (st : SessionState) (ym : string) : option UserConfig :=
  match ss_month_configs st with
  | Some mc => PyDict.get ym mc
  | None => None
  end.

Definition option_or {A : Type} (o : option A) (dflt : A) : A :=
  match o with
  | Some v => v
  | None => dflt
  end.

(** The layering, field by field: later layers win, and each layer touches
    only its own fields. *)
Definition layered (st : SessionState) (ym : string) (r : Config * heap) : Prop :=
  let cfg := fst r in
  irpf cfg =
    option_or (bind (user_patch st ym) u_irpf)
      (option_or (option_map (fun g => g / 100.0) (ss_global_irpf st)) 0.35)
  /\ prodFija cfg = option_or (bind (user_patch st ym) u_prodFija) 733.42
  /\ ccBaseWorker (bases cfg) =
       option_or (bind (hardcoded_bases ym) o_ccBaseWorker) 2151.30
  /\ resolved_tranches r =
       option_or (option_map (deref module_heap) (bind (hardcoded_bases ym) o_solidarity))
                 default_tranches
  /\ rates cfg = mkRates 27.07 29.47 47.11 0.5
  /\ ccRate (bases cfg) = 0.0483
  /\ fpRate (bases cfg) = 0.0010.

(** June 2025 with a user override of the tax rate: the hardcoded base and
    tranches and the user's tax rate all apply. *)
Definition june_state : SessionState :=
  mkState [] (Some [("2025-06"%string, mkUser (Some 0.2) None)]) [] (Some 35.0).

(** What the hardcoded table shows as the tranches of a month. *)
Definition override_tranches (h : heap) (ym : string) : option (list Tranche) :=
  option_map (deref h) (bind (hardcoded_bases ym) o_solidarity).

Local Open Scope Z_scope.

(** ** Payment schedule and normal payroll (C4, C10) *)

(** The service month string "YYYY-MM" of year [y] and month [m]. *)
Definition service_month (y m : Z) : string :=
  (fmt_0d 4 y ++ "-" ++ fmt_0d 2 m)%string.

(** The calendar successor of a month. *)
Definition calendar_next (y m : Z) : Z * Z :=
  if m =? 12 then (y + 1, 1) else (y, m + 1).

(** The payment month string of year [y] and month [m], as the code writes
    it: the year in plain decimal, the month on two digits. *)
Definition payment_month (ym : Z * Z) : string :=
  (str_int (fst ym) ++ "-" ++ fmt_0d 2 (snd ym))%string.

Definition next_month_agrees (y m : Z) : bool :=
  match next_month_str (service_month y m) with
  | Some pm => String.eqb pm (payment_month (calendar_next y m))
  | None => false
  end.

(** The integers [lo], ..., [lo + n - 1]. *)
Definition Z_range (lo : Z) (n : nat) : list Z :=
  map (fun k => lo + Z.of_nat k) (seq 0 n).

Local Open Scope float_scope.

(** Is [x] another character than [c]? *)
Definition not_char (c : ascii) (x : ascii) : bool := negb (Ascii.eqb x c).

(** Does service month [sm] pay out in payment month [pm]? *)
Definition pays_in (pm sm : string) : bool :=
  match next_month_str sm with
  | Some pm' => String.eqb pm' pm
  | None => false
  end.

Definition neto_of (fin : PyDict.t Financials) (sm : string) : option float :=
  option_map f_neto (PyDict.get sm fin).

(** What the projection of the service months [months] has to be: every
    payment month lists the service months that map to it, in order, and its
    complementary amount is the sum of their nets, from 0.0 and in that
    order. *)
Definition payments_spec (months : list string) (fin : PyDict.t Financials)
  (pay : PyDict.t Payment) : Prop :=
  (forall pm p, PyDict.get pm pay = Some p ->
     p_from p = filter (pays_in pm) months
     /\ exists nets, mapM (neto_of fin) (p_from p) = Some nets
          /\ p_comp p = fold_left PrimFloat.add nets 0.0)
  /\ (forall sm, In sm months ->
        exists pm p, next_month_str sm = Some pm
          /\ PyDict.get pm pay = Some p /\ In sm (p_from p)).

(** The projection of one script run: the payments of the sorted service
    months of the computed financials. *)
Definition payment_projection (st : SessionState) (h : heap)
  : option (PyDict.t Payment) :=
  r <- compute st h ;;
  let '(agg, fin, _) := r in
  payments (sorted_months agg) fin.

(** A session whose acts fall in May 2025 (one of them with the date written
    "02025-5-1", as a restored backup may hold it) and in December 2025. *)
Definition two_to_one_state : SessionState :=
  mkState [ mkAct "a" "2025-05-10" "TARDE" false;
            mkAct "b" "02025-5-1" "G_LJ" false;
            mkAct "c" "2025-12-25" "G_LJ" true ]
          (Some []) [] (Some 35.0).

(** The financials of that session. *)
Definition two_to_one_fin : PyDict.t Financials :=
  match compute two_to_one_state module_heap with
  | Some (_, fin, _) => fin
  | None => []
  end.

(** The typical amount of a payment month: the table entry of its month
    number, else 1500.00. *)
Definition typical_of (pm : string) : option float :=
  match split "-" pm with
  | _ :: mm :: _ => Some (PyDict.get_default mm 1500.00 TYPICAL_NORMAL_BY_MONTH)
  | _ => None
  end.

Local Open Scope Z_scope.

(** ** Bulk quick-entry (C9, C8) *)

Definition bulk_types : list string := ["G_LJ"; "G_VIERNES"; "G_SABADO"; "G_DOMINGO"]%string.

(** An act as the bulk form builds it from a date that [date_new] accepted. *)
Definition bulk_generated (a : Act) : Prop :=
  exists d : PyDate,
    date_new (d_year d) (d_month d) (d_day d) = DateOk d
    /\ a_date a = strftime_ymd d
    /\ a_type a = classify_date d
    /\ a_special a = is_special_date d.

(** Monday to Thursday, Friday, Saturday, Sunday. *)
Definition weekday_type (d : PyDate) : Prop :=
  (0 <= weekday d <= 3 /\ classify_date d = "G_LJ"%string)
  \/ (weekday d = 4 /\ classify_date d = "G_VIERNES"%string)
  \/ (weekday d = 5 /\ classify_date d = "G_SABADO"%string)
  \/ (weekday d = 6 /\ classify_date d = "G_DOMINGO"%string).

(** The dates among the requested day tokens: a token that is not an integer
    literal or not a day of the month gives none. *)
Fixpoint valid_dates (q_month : PyDate) (days : list string) : list PyDate :=
  match days with
  | [] => []
  | d :: rest =>
      match py_int d with
      | Some n =>
          match date_new (d_year q_month) (d_month q_month) n with
          | DateOk t => t :: valid_dates q_month rest
          | _ => valid_dates q_month rest
          end
      | None => valid_dates q_month rest
      end
  end.

(** The day numbers of all tokens fit a C int. *)
Definition days_fit_c_int (days : list string) : Prop :=
  Forall (fun d => forall n, py_int d = Some n -> fits_c_int n = true) days.

Local Open Scope float_scope.

(** ** Forms, editor and closed forms (further properties) *)

Local Open Scope Z_scope.

(** A date object: one that [date_new] builds. *)
Definition valid_date (d : PyDate) : Prop :=
  date_new (d_year d) (d_month d) (d_day d) = DateOk d.

(** What the user can do to the list of acts through the first tab. *)
Inductive Action : Type :=
| AddManual (d_date : PyDate) (d_type : string)
| AddAuto (q_month : PyDate) (q_days : string)
| DeleteOne (to_del : string)
| DeleteAll.

(** The date widgets give date objects and the select box gives a key of
    [ACT_MODELS]. *)
Definition action_ok (a : Action) : Prop :=
  match a with
  | AddManual d_date d_type => valid_date d_date /\ In d_type (PyDict.keys ACT_MODELS)
  | AddAuto q_month _ => valid_date q_month
  | DeleteOne _ => True
  | DeleteAll => True
  end.

(** One action on the acts, with the number of identifiers drawn so far. *)
Definition run_action (uuid4 : nat -> string) (s : list Act * nat) (a : Action)
  : list Act * nat :=
  let (acts, drawn) := s in
  match a with
  | AddManual d_date d_type => (add_manual uuid4 d_date d_type drawn acts, S drawn)
  | AddAuto q_month q_days =>
      let acts' := fst (submitted_auto uuid4 q_month q_days drawn acts) in
      (acts', (drawn + (List.length acts' - List.length acts))%nat)
  | DeleteOne to_del => (delete_act to_del acts, drawn)
  | DeleteAll => ([], drawn)
  end.

(** The acts after a sequence of actions on the preloaded session. *)
Definition acts_after (uuid4 : nat -> string) (actions : list Action) : list Act :=
  fst (fold_left (run_action uuid4) actions (initial_acts uuid4, 6%nat)).

(** An act as the forms store it: a registered type and the text of a date
    object. *)
Definition form_act (a : Act) : Prop :=
  model_of a <> None /\ exists d, valid_date d /\ a_date a = strftime_ymd d.

Local Open Scope float_scope.

(** The values a month's configuration resolves to. *)
Definition resolved_irpf (st : SessionState) (ym : string) : float :=
  option_or (bind (user_patch st ym) u_irpf)
    (option_or (option_map (fun g => g / 100.0) (ss_global_irpf st)) 0.35).

Definition resolved_prodFija (st : SessionState) (ym : string) : float :=
  option_or (bind (user_patch st ym) u_prodFija) 733.42.

Definition month_base (ym : string) : float :=
  option_or (bind (hardcoded_bases ym) o_ccBaseWorker) 2151.30.

Definition month_tranches (ym : string) : list Tranche :=
  option_or (option_map (deref module_heap) (bind (hardcoded_bases ym) o_solidarity))
            default_tranches.

(** The accrual lines, deduction lines and net of a month computed on its
    own: from the month's acts alone, on the heap as the module leaves it. *)
Definition month_lines (st : SessionState) (ym : string) (month_acts : list Act)
  : option (Accruals * Deductions * float) :=
  option_map (fun r => (f_dev (fst r), f_desc (fst r), f_neto (fst r)))
             (month_financials st ym (mkAgg month_acts (mkHours 0 0 0 0)) module_heap).

Local Open Scope Z_scope.

(** The special days as (month, day) pairs. *)
Definition special_days : list (Z * Z) :=
  [(1, 1); (1, 6); (2, 28); (10, 7); (12, 25)].

Definition is_special_day (m d : Z) : bool :=
  existsb (fun md => (fst md =? m) && (snd md =? d)) special_days.

Local Open Scope float_scope.

(** A sequence of actions on the first tab. *)
Definition sample_actions : list Action :=
  [ AddManual (mkDate 2025 12 25) "REFUERZO";
    AddAuto (mkDate 2025 11 4) "2, 31; 8";
    DeleteOne "act-1";
    AddAuto (mkDate 2026 2 1) "29, 28" ].

(** Acts of two months, two of them sharing an identifier. *)
Definition two_ids_acts : list Act :=
  [ mkAct "a" "2025-10-03" "G_VIERNES" false;
    mkAct "b" "2025-11-02" "G_DOMINGO" false;
    mkAct "a" "2025-10-30" "TARDE" false ].

(** June 2025 with one act and a user override of the tax rate. *)
Definition june_state_with_act : SessionState :=
  mkState [mkAct "a" "2025-06-13" "G_VIERNES" false]
          (Some [("2025-06"%string, mkUser (Some 0.2) None)]) [] (Some 35.0).

Local Open Scope float_scope.

(** * Properties *)

(** ** Dictionary lemmas *)

Module PyDictFacts.
Import PyDict.

Section Facts.
Context {V : Type}.
Implicit Types (d : t V) (k : string).

Lemma get_set_same k v d : get k (set k v d) = Some v.
Proof.
  induction d as [|[k' v'] r IH]; simpl.
  - now rewrite String.eqb_refl.
  - destruct (String.eqb k k') eqn:E; simpl.
    + now rewrite String.eqb_refl.
    + now rewrite E.
Qed.

Lemma get_set_other k k' v d : k <> k' -> get k' (set k v d) = get k' d.
Proof.
  intros Hne. induction d as [|[k0 v0] r IH]; simpl.
  - destruct (String.eqb k' k) eqn:E; [|reflexivity].
    apply String.eqb_eq in E. congruence.
  - destruct (String.eqb k k0) eqn:E; simpl.
    + apply String.eqb_eq in E. subst k0.
      destruct (String.eqb k' k) eqn:E'; [|reflexivity].
      apply String.eqb_eq in E'. congruence.
    + now rewrite IH.
Qed.

Lemma get_modify_same k f d : get k (modify k f d) = option_map f (get k d).
Proof.
  induction d as [|[k' v'] r IH]; simpl; [reflexivity|].
  destruct (String.eqb k k') eqn:E; simpl; now rewrite E.
Qed.

Lemma get_modify_other k k' f d : k <> k' -> get k' (modify k f d) = get k' d.
Proof.
  intros Hne. induction d as [|[k0 v0] r IH]; simpl; [reflexivity|].
  destruct (String.eqb k k0) eqn:E; simpl.
  - apply String.eqb_eq in E. subst k0.
    destruct (String.eqb k' k) eqn:E'; [|reflexivity].
    apply String.eqb_eq in E'. congruence.
  - now rewrite IH.
Qed.

Lemma get_upsert_same k dflt f d :
  get k (upsert k dflt f d) = Some (f (get_default k dflt d)).
Proof.
  unfold upsert, contains, get_default. rewrite get_modify_same.
  destruct (get k d) eqn:E.
  - now rewrite E.
  - now rewrite get_set_same.
Qed.

Lemma get_upsert_other k k' dflt f d :
  k <> k' -> get k' (upsert k dflt f d) = get k' d.
Proof.
  intros Hne. unfold upsert. rewrite get_modify_other by assumption.
  destruct (contains k d); [reflexivity|].
  now apply get_set_other.
Qed.

Lemma get_In_keys k d : get k d <> None <-> In k (keys d).
Proof.
  induction d as [|[k' v'] r IH]; simpl.
  - split; [congruence | tauto].
  - destruct (String.eqb k k') eqn:E.
    + apply String.eqb_eq in E. subst. split; [auto | congruence].
    + apply String.eqb_neq in E. rewrite IH. split; [auto|].
      intros [H|H]; [congruence | assumption].
Qed.

End Facts.
End PyDictFacts.

(** ** Facts about [sorted] *)

Lemma insert_sorted_In k x l : In x (insert_sorted k l) <-> x = k \/ In x l.
Proof.
  induction l as [|y r IH]; simpl.
  - intuition.
  - destruct (str_leb k y); simpl; [intuition|].
    rewrite IH. intuition.
Qed.

Lemma sorted_In x l : In x (sorted l) <-> In x l.
Proof.
  induction l as [|y r IH]; simpl; [tauto|].
  rewrite insert_sorted_In, IH. intuition.
Qed.

(** ** Monadic folds *)

(** An invariant of the accumulator that every successful step keeps holds at
    the end of a successful fold. *)
Lemma foldM_invariant {A X : Type} (step : A -> X -> option A) (P : A -> Prop) :
  (forall a x a', P a -> step a x = Some a' -> P a') ->
  forall l a a', P a -> foldM step l a = Some a' -> P a'.
Proof.
  intros Hstep l. induction l as [|x r IH]; intros a a' Ha; simpl.
  - intros [= <-]. exact Ha.
  - destruct (step a x) as [a1|] eqn:E; simpl; [|discriminate].
    apply IH. eapply Hstep; eauto.
Qed.

(** ** C1: totals and net of a month's financials *)

Lemma month_financials_totals st ym data h f h' :
  month_financials st ym data h = Some (f, h') -> totals_consistent f.
Proof.
  unfold month_financials.
  destruct (get_month_config st ym h) as [cfg h1].
  destruct (foldM (dev_step cfg) (g_acts data) _) as [acc|]; simpl; [|discriminate].
  intros [= <- _]. repeat split.
Qed.

Lemma financials_step_totals st agg s ym s' :
  (forall k f, PyDict.get k (fst s) = Some f -> totals_consistent f) ->
  financials_step st agg s ym = Some s' ->
  forall k f, PyDict.get k (fst s') = Some f -> totals_consistent f.
Proof.
  destruct s as [fin h]. unfold financials_step. intros Hinv.
  destruct (PyDict.get ym agg) as [data|]; simpl; [|discriminate].
  destruct (month_financials st ym data h) as [[f0 h0]|] eqn:E; simpl; [|discriminate].
  intros [= <-] k f. simpl.
  destruct (String.eqb ym k) eqn:Ek.
  - apply String.eqb_eq in Ek. subst k.
    rewrite PyDictFacts.get_set_same. intros [= <-].
    eapply month_financials_totals; eauto.
  - apply String.eqb_neq in Ek.
    rewrite PyDictFacts.get_set_other by assumption. apply Hinv.
Qed.

(** C1. In every month's financials the accrual total is the sum of the four
    accrual lines (024 + 025 + 180 + PF, added in that order), the deduction
    total is the sum of the four deduction lines (IRPF + CC + FP + Sol) and
    the net is the accrual total minus the deduction total. *)
Theorem financials_totals_consistent :
  forall (st : SessionState) (h : heap) agg fin h',
    compute st h = Some (agg, fin, h') ->
    forall ym f, PyDict.get ym fin = Some f -> totals_consistent f.
Proof.
  intros st h agg fin h'. unfold compute.
  destruct (aggregated_by_month (ss_acts st)) as [agg0|]; simpl; [|discriminate].
  destruct (financials_by_month st agg0 h) as [[fin0 h0]|] eqn:E; simpl; [|discriminate].
  intros [= <- <- <-].
  unfold financials_by_month in E.
  apply (foldM_invariant (financials_step st agg0)
           (fun s => forall k f, PyDict.get k (fst s) = Some f -> totals_consistent f))
    with (l := sorted_months agg0) (a := ([], h)) (a' := (fin0, h0)).
  - intros a x a' Ha Hs. eapply financials_step_totals; eauto.
  - simpl. discriminate.
  - exact E.
Qed.

(** The theorem at the preloaded October acts. *)
Lemma financials_totals_consistent_witness :
  match compute (initial_state sample_uuid4) module_heap with
  | Some (_, fin, _) =>
      match PyDict.get "2025-10" fin with
      | Some f => totals_consistent f
      | None => False
      end
  | None => False
  end.
Proof.
  pose proof (financials_totals_consistent (initial_state sample_uuid4) module_heap) as H.
  destruct (compute (initial_state sample_uuid4) module_heap)
    as [[[agg fin] h']|] eqn:E.
  - specialize (H agg fin h' eq_refl "2025-10"%string).
    destruct (PyDict.get "2025-10" fin) as [f|] eqn:G.
    + exact (H f eq_refl).
    + vm_compute in E. injection E as _ Efin _. subst fin. discriminate G.
  - vm_compute in E. discriminate E.
Defined.

(** ** C5: the monthly aggregator *)

Lemma aggregate_step_get agg act agg' ym :
  aggregate_step agg act = Some agg' ->
  exists m, model_of act = Some m /\
    PyDict.get ym agg' =
      if in_month ym act
      then let e := PyDict.get_default ym new_month agg in
           Some (mkAgg (g_acts e ++ [act])
                       (hours_sum [m] (g_hours e)))
      else PyDict.get ym agg.
Proof.
  unfold aggregate_step, model_of, in_month.
  destruct (PyDict.get (a_type act) ACT_MODELS) as [m|]; simpl; [|discriminate].
  intros [= <-]. exists m. split; [reflexivity|].
  destruct (String.eqb (year_month (a_date act)) ym) eqn:E.
  - apply String.eqb_eq in E. subst ym.
    rewrite PyDictFacts.get_modify_same, PyDictFacts.get_upsert_same.
    reflexivity.
  - apply String.eqb_neq in E.
    rewrite PyDictFacts.get_modify_other, PyDictFacts.get_upsert_other by assumption.
    reflexivity.
Qed.

(** What the loop leaves under a key, from any starting dictionary. *)
Lemma aggregate_fold_get ym : forall acts agg agg',
  foldM aggregate_step acts agg = Some agg' ->
  exists ms, mapM model_of (filter (in_month ym) acts) = Some ms /\
    PyDict.get ym agg' =
      match filter (in_month ym) acts with
      | [] => PyDict.get ym agg
      | l => let e := PyDict.get_default ym new_month agg in
             Some (mkAgg (g_acts e ++ l) (hours_sum ms (g_hours e)))
      end.
Proof.
  induction acts as [|a r IH]; intros agg agg'; simpl.
  - intros [= <-]. exists []. split; reflexivity.
  - destruct (aggregate_step agg a) as [agg1|] eqn:Es; simpl; [|discriminate].
    intros Hr. destruct (IH _ _ Hr) as (ms & Hms & Hget).
    destruct (aggregate_step_get _ _ _ ym Es) as (m & Hm & Hget1).
    destruct (in_month ym a) eqn:Ein.
    + exists (m :: ms). simpl. rewrite Hm, Hms. simpl. split; [reflexivity|].
      rewrite Hget. unfold PyDict.get_default. rewrite Hget1. simpl.
      destruct (filter (in_month ym) r) as [|b l].
      * simpl in Hms. injection Hms as <-. reflexivity.
      * simpl. rewrite <- app_assoc. reflexivity.
    + exists ms. split; [assumption|].
      rewrite Hget. unfold PyDict.get_default. rewrite Hget1. reflexivity.
Qed.

Lemma hours_sum_fields ms : forall h0,
  h_labor (hours_sum ms h0) = fold_left PrimFloat.add (map m_labor ms) (h_labor h0)
  /\ h_fest (hours_sum ms h0) = fold_left PrimFloat.add (map m_fest ms) (h_fest h0)
  /\ h_ca (hours_sum ms h0) = fold_left PrimFloat.add (map m_ca ms) (h_ca h0)
  /\ h_loca (hours_sum ms h0) = fold_left PrimFloat.add (map m_loca ms) (h_loca h0).
Proof.
  induction ms as [|m r IH]; intros h0; simpl.
  - repeat split.
  - apply (IH (mkHours _ _ _ _)).
Qed.

Lemma aggregate_succeeds : forall acts agg,
  Forall (fun a => model_of a <> None) acts ->
  exists agg', foldM aggregate_step acts agg = Some agg'.
Proof.
  induction acts as [|a r IH]; intros agg Hall; simpl.
  - eexists. reflexivity.
  - inversion Hall as [|? ? Ha Hr]; subst.
    unfold aggregate_step at 1. fold (model_of a).
    destruct (model_of a) as [m|]; [|congruence]. simpl.
    apply IH. assumption.
Qed.

Lemma aggregate_models : forall acts agg agg',
  foldM aggregate_step acts agg = Some agg' ->
  Forall (fun a => model_of a <> None) acts.
Proof.
  induction acts as [|a r IH]; intros agg agg'; simpl.
  - constructor.
  - destruct (aggregate_step agg a) as [agg1|] eqn:Es; simpl; [|discriminate].
    intros Hr. constructor; [|eapply IH; eauto].
    destruct (aggregate_step_get _ _ _ ""%string Es) as (m & Hm & _). congruence.
Qed.

Lemma same_but_special_filter ym : forall acts acts',
  Forall2 same_but_special acts acts' ->
  Forall2 same_but_special (filter (in_month ym) acts) (filter (in_month ym) acts').
Proof.
  induction 1 as [|a b l l' Hab Hl IH]; simpl; [constructor|].
  destruct Hab as (Hid & Hd & Ht).
  assert (E : in_month ym a = in_month ym b) by (unfold in_month; now rewrite Hd).
  rewrite E. destruct (in_month ym b); [constructor; [repeat split|]|]; assumption.
Qed.

Lemma same_but_special_models : forall acts acts',
  Forall2 same_but_special acts acts' ->
  mapM model_of acts = mapM model_of acts'.
Proof.
  induction 1 as [|a b l l' Hab Hl IH]; simpl; [reflexivity|].
  destruct Hab as (_ & _ & Ht).
  assert (E : model_of a = model_of b) by (unfold model_of; now rewrite Ht).
  rewrite E, IH. reflexivity.
Qed.

Lemma same_but_special_has_model : forall acts acts',
  Forall2 same_but_special acts acts' ->
  Forall (fun a => model_of a <> None) acts ->
  Forall (fun a => model_of a <> None) acts'.
Proof.
  induction 1 as [|a b l l' Hab Hl IH]; intros Hall; [constructor|].
  inversion Hall; subst. constructor; [|auto].
  destruct Hab as (_ & _ & Ht). unfold model_of in *. rewrite <- Ht. assumption.
Qed.

(** The entry of a month in the aggregate, in closed form. *)
Lemma aggregated_entry acts agg ym :
  aggregated_by_month acts = Some agg ->
  exists ms, mapM model_of (filter (in_month ym) acts) = Some ms /\
    PyDict.get ym agg =
      match filter (in_month ym) acts with
      | [] => None
      | l => Some (mkAgg l (hours_sum ms (mkHours 0 0 0 0)))
      end.
Proof.
  intros H. destruct (aggregate_fold_get ym _ _ _ H) as (ms & Hms & Hget).
  exists ms. split; [assumption|]. rewrite Hget. reflexivity.
Qed.

(** C5. When the aggregation succeeds, (1) the entry of every year-month
    holds exactly the events whose date starts with those seven characters,
    in their order, and its four hour sums are the sums, from 0 and in that
    order, of the registry's contributions for the types of these events;
    (2) every event is filed under the first seven characters of its date;
    (3) changing [special] flags changes neither whether the aggregation
    succeeds nor any month's hour sums. *)
Theorem aggregated_by_month_sums :
  forall acts agg,
    aggregated_by_month acts = Some agg -> aggregate_spec acts agg.
Proof.
  intros acts agg Hagg. split; [|split].
  - intros ym e He.
    destruct (aggregated_entry _ _ ym Hagg) as (ms & Hms & Hget).
    rewrite He in Hget.
    destruct (filter (in_month ym) acts) as [|b l] eqn:Ef; [discriminate|].
    injection Hget as ->. simpl. split; [reflexivity|].
    exists ms. split; [assumption|].
    apply (hours_sum_fields ms (mkHours 0 0 0 0)).
  - intros a Ha.
    destruct (aggregated_entry _ _ (year_month (a_date a)) Hagg) as (ms & Hms & Hget).
    assert (Hin : In a (filter (in_month (year_month (a_date a))) acts)).
    { apply filter_In. split; [assumption|]. unfold in_month. apply String.eqb_refl. }
    destruct (filter (in_month (year_month (a_date a))) acts) as [|b l]; [destruct Hin|].
    eexists. split; [exact Hget|]. exact Hin.
  - intros acts' Hrel.
    destruct (aggregate_succeeds acts' []) as [agg' Hagg'].
    { eapply same_but_special_has_model; eauto. eapply aggregate_models; eauto. }
    exists agg'. split; [exact Hagg'|]. intros ym.
    destruct (aggregated_entry _ _ ym Hagg) as (ms & Hms & Hget).
    destruct (aggregated_entry _ _ ym Hagg') as (ms' & Hms' & Hget').
    pose proof (same_but_special_filter ym _ _ Hrel) as Hf.
    rewrite (same_but_special_models _ _ Hf), Hms' in Hms. injection Hms as <-.
    rewrite Hget, Hget'.
    inversion Hf; reflexivity.
Qed.

(** The theorem at the preloaded October acts. *)
Lemma aggregated_by_month_sums_witness :
  exists agg,
    aggregated_by_month (initial_acts sample_uuid4) = Some agg
    /\ aggregate_spec (initial_acts sample_uuid4) agg.
Proof.
  eexists. split.
  - vm_compute. reflexivity.
  - apply aggregated_by_month_sums. vm_compute. reflexivity.
Defined.

(** The hour sums of the preloaded October acts. *)
Example october_hours :
  option_map (fun agg => option_map g_hours (PyDict.get "2025-10" agg))
             (aggregated_by_month (initial_acts sample_uuid4))
  = Some (Some (mkHours 48 24 30 0)).
Proof. vm_compute. reflexivity. Qed.

(** ** C2: the continuity-of-care line *)


Lemma dev_fold_succeeds cfg : forall l acc,
  Forall (fun a => model_of a <> None) l ->
  exists r, foldM (dev_step cfg) l acc = Some r.
Proof.
  induction l as [|a l IH]; intros acc Hall; simpl.
  - eexists. reflexivity.
  - inversion Hall as [|? ? Ha Hl]; subst.
    unfold dev_step at 1. fold (model_of a).
    destruct (model_of a) as [m|]; [|congruence]. simpl. apply IH. assumption.
Qed.

Lemma apply_opt_preserves {A B : Type} (proj : Config -> B) (o : option A) f cfg :
  (forall v c, proj (f v c) = proj c) -> proj (apply_opt o f cfg) = proj cfg.
Proof. intros H. destruct o; simpl; [apply H | reflexivity]. Qed.

(** The configuration a month resolves to, without the heap it leaves. *)
Ltac unfold_month_config st ym :=
  unfold get_month_config, json_roundtrip, alloc; cbv zeta; cbv beta iota;
  destruct (PyDict.get ym MONTHLY_OVERRIDES) as [[[ob|]]|];
  destruct (ss_month_configs st) as [mc|];
  try destruct (PyDict.get ym mc) as [user_cfg|];
  cbn [fst snd o_bases].

Lemma get_month_config_rates st ym h :
  rates (fst (get_month_config st ym h)) = rates DEFAULT_CONFIG_TEMPLATE.
Proof.
  unfold_month_config st ym;
    rewrite ?(apply_opt_preserves rates) by (intros; reflexivity);
    reflexivity.
Qed.


Lemma month_financials_succeeds st ym data h :
  Forall (fun a => model_of a <> None) (g_acts data) ->
  exists r, month_financials st ym data h = Some r.
Proof.
  intros Hall. unfold month_financials.
  destruct (get_month_config st ym h) as [cfg h1].
  destruct (dev_fold_succeeds cfg (g_acts data) (mkAcc 0.0 0.0 0.0) Hall) as [r Hr].
  rewrite Hr. simpl. eexists. reflexivity.
Qed.

Section FinancialsLoop.
Variables (st : SessionState) (agg : PyDict.t MonthAgg).

(** Where an entry of the result comes from. *)
Lemma financials_fold_origin : forall months fin0 h0 fin h',
  foldM (financials_step st agg) months (fin0, h0) = Some (fin, h') ->
  forall ym f, PyDict.get ym fin = Some f ->
    PyDict.get ym fin0 = Some f
    \/ (In ym months /\ exists data h1 h2,
          PyDict.get ym agg = Some data
          /\ month_financials st ym data h1 = Some (f, h2)).
Proof.
  induction months as [|m months IH]; intros fin0 h0 fin h'; simpl.
  - intros [= <- <-] ym f Hf. left. assumption.
  - destruct (PyDict.get m agg) as [data|] eqn:Ed; simpl; [|discriminate].
    destruct (month_financials st m data h0) as [[f0 h1]|] eqn:Em; simpl; [|discriminate].
    intros Hr ym f Hf.
    destruct (IH _ _ _ _ Hr ym f Hf) as [H0|(Hin & data' & h2 & h3 & Hd & Hm)].
    + destruct (String.eqb m ym) eqn:E.
      * apply String.eqb_eq in E. subst ym.
        rewrite PyDictFacts.get_set_same in H0. injection H0 as <-.
        right. split; [now left|]. exists data, h0, h1. split; assumption.
      * apply String.eqb_neq in E.
        rewrite PyDictFacts.get_set_other in H0 by assumption. left. assumption.
    + right. split; [now right|]. exists data', h2, h3. split; assumption.
Qed.

Lemma financials_fold_keeps : forall months fin0 h0 fin h',
  foldM (financials_step st agg) months (fin0, h0) = Some (fin, h') ->
  forall ym, PyDict.get ym fin0 <> None \/ In ym months -> PyDict.get ym fin <> None.
Proof.
  induction months as [|m months IH]; intros fin0 h0 fin h'; simpl.
  - intros [= <- <-] ym [H|[]]. assumption.
  - destruct (PyDict.get m agg) as [data|] eqn:Ed; simpl; [|discriminate].
    destruct (month_financials st m data h0) as [[f0 h1]|] eqn:Em; simpl; [|discriminate].
    intros Hr ym Hym. apply (IH _ _ _ _ Hr).
    destruct (String.eqb m ym) eqn:E.
    + apply String.eqb_eq in E. subst ym. left.
      rewrite PyDictFacts.get_set_same. discriminate.
    + apply String.eqb_neq in E.
      rewrite PyDictFacts.get_set_other by assumption.
      destruct Hym as [H|[H|H]]; [now left | congruence | now right].
Qed.

Lemma financials_fold_succeeds : forall months s,
  (forall ym, In ym months ->
     exists data, PyDict.get ym agg = Some data
       /\ Forall (fun a => model_of a <> None) (g_acts data)) ->
  exists r, foldM (financials_step st agg) months s = Some r.
Proof.
  induction months as [|m months IH]; intros [fin0 h0] Hall; simpl.
  - eexists. reflexivity.
  - destruct (Hall m (or_introl eq_refl)) as (data & Hd & Hm).
    rewrite Hd. simpl.
    destruct (month_financials_succeeds st m data h0 Hm) as [r Hr].
    rewrite Hr. simpl. apply IH. intros ym Hin. apply Hall. now right.
Qed.

End FinancialsLoop.

Lemma compute_unfold st h :
  compute st h =
    match aggregated_by_month (ss_acts st) with
    | Some agg =>
        match financials_by_month st agg h with
        | Some (fin, h') => Some (agg, fin, h')
        | None => None
        end
    | None => None
    end.
Proof.
  unfold compute. destruct (aggregated_by_month (ss_acts st)) as [agg|]; simpl; [|reflexivity].
  destruct (financials_by_month st agg h) as [[fin h']|]; reflexivity.
Qed.

(** Once the aggregation has succeeded the financial loop cannot fail. *)
Lemma financials_succeed st acts agg h :
  aggregated_by_month acts = Some agg ->
  exists fin h', financials_by_month st agg h = Some (fin, h').
Proof.
  intros Hagg.
  destruct (financials_fold_succeeds st agg (sorted_months agg) ([], h)) as [[fin h'] Hr].
  - intros ym Hin. apply sorted_In, PyDictFacts.get_In_keys in Hin.
    destruct (PyDict.get ym agg) as [data|] eqn:Ed; [|congruence].
    exists data. split; [reflexivity|].
    destruct (aggregated_entry _ _ ym Hagg) as (ms & _ & Hget).
    rewrite Ed in Hget.
    assert (Hacts : g_acts data = filter (in_month ym) acts).
    { destruct (filter (in_month ym) acts); [discriminate|]. now injection Hget as ->. }
    rewrite Hacts. apply Forall_forall. intros a Ha. apply filter_In in Ha. destruct Ha as [Ha _].
    pose proof (aggregate_models _ _ _ Hagg) as Hall.
    rewrite Forall_forall in Hall. auto.
  - exists fin, h'. exact Hr.
Qed.








(** Line 180 of October for the preloaded acts, with the flags as stored and
    with every flag flipped: the other two hourly lines do change. *)
Example october_lines_flipped :
  let st := initial_state sample_uuid4 in
  let lines r :=
    match r with
    | Some (_, fin, _) =>
        option_map (fun f => (dev024 (f_dev f), dev025 (f_dev f), dev180 (f_dev f)))
                   (PyDict.get "2025-10" fin)
    | None => None
    end in
  lines (compute st module_heap) = Some (1515.9200000000001, 1178.8, 1413.3)
  /\ lines (compute (with_acts (map flip_special (ss_acts st)) st) module_heap)
     = Some (2382.1600000000003, 943.04, 1413.3).
Proof. vm_compute. split; reflexivity. Qed.

(** ** C7: the 7 October scenario *)

(** The claimed total is not what the code computes: the four lines are
    added as binary64 numbers and the sum falls one unit in the last place
    short of 2345.13. *)
Lemma october_7_total_differs :
  option_map devTotal (october_7_accruals "a") <> Some 2345.13.
Proof.
  intros H.
  apply (f_equal (fun o => match o with
                           | Some v => PrimFloat.eqb v 2345.13
                           | None => false
                           end)) in H.
  vm_compute in H. discriminate H.
Qed.

(** C7, as the code has it.  For the single event of 2025-10-07 with hour
    model ca 5, labor 8, fest 16, loca 0, flagged special, under the default
    October configuration (rates 27.07, 29.47, 47.11, fixed production
    733.42), the accrual lines are exactly 433.12, 943.04, 235.55 and 733.42,
    and the accrual total is their binary64 sum 2345.1299999999997, the
    number just below 2345.13. *)
Theorem october_7_scenario :
  forall id : string,
    PyDict.get "G_24_MIX" ACT_MODELS = Some (mkModel 5 8 16 0)
    /\ (let cfg := fst (get_month_config (october_7_state id) "2025-10" module_heap) in
        rates cfg = mkRates 27.07 29.47 47.11 0.5 /\ prodFija cfg = 733.42)
    /\ october_7_accruals id
       = Some (mkDev 433.12 943.04 235.55 733.42 2345.1299999999997)
    /\ PrimFloat.next_up 2345.1299999999997 = 2345.13.
Proof.
  intros id. repeat split; vm_compute; reflexivity.
Qed.

(** ** C3: layering of the month configuration *)

Lemma monthly_overrides_cases ym :
  PyDict.get ym MONTHLY_OVERRIDES = None
  \/ (ym = "2025-03"%string
      /\ PyDict.get ym MONTHLY_OVERRIDES
         = Some (mkOver (Some (mkBasesOver None (Some MAR_SOLIDARITY)))))
  \/ (ym = "2025-04"%string
      /\ PyDict.get ym MONTHLY_OVERRIDES
         = Some (mkOver (Some (mkBasesOver None (Some APR_SOLIDARITY)))))
  \/ (ym = "2025-06"%string
      /\ PyDict.get ym MONTHLY_OVERRIDES
         = Some (mkOver (Some (mkBasesOver (Some 2098.15) (Some JUN_SOLIDARITY))))).
Proof.
  unfold MONTHLY_OVERRIDES. cbn [PyDict.get].
  destruct (String.eqb ym "2025-03") eqn:E3.
  { apply String.eqb_eq in E3. right. left. split; [assumption | reflexivity]. }
  destruct (String.eqb ym "2025-04") eqn:E4.
  { apply String.eqb_eq in E4. right. right. left. split; [assumption | reflexivity]. }
  destruct (String.eqb ym "2025-06") eqn:E6.
  { apply String.eqb_eq in E6. right. right. right. split; [assumption | reflexivity]. }
  left. reflexivity.
Qed.

Lemma deref_fresh (h : heap) v : deref (h ++ [v])%list (List.length h) = v.
Proof. unfold deref. now rewrite nth_middle. Qed.

(** C3. Whatever the session state and the month, the resolved configuration
    is the defaults, patched by the global tax-rate setting (percent / 100),
    then by the hardcoded override of the month (only [ccBaseWorker] and the
    whole tranche sequence), then by the user's override of the month (only
    the tax rate and the fixed production): a month with both kinds of
    override gets both. *)
Theorem get_month_config_layered :
  forall (st : SessionState) (ym : string) (h : heap),
    heap_extends module_heap h ->
    layered st ym (get_month_config st ym h).
Proof.
  intros st ym h [ext ->]. unfold layered, resolved_tranches, hardcoded_bases, user_patch.
  unfold get_month_config, json_roundtrip, alloc. cbv zeta. cbv beta iota.
  destruct (monthly_overrides_cases ym) as [E|[[_ E]|[[_ E]|[_ E]]]]; rewrite E;
    destruct (ss_month_configs st) as [mc|];
    try destruct (PyDict.get ym mc) as [[[i|] [p|]]|];
    destruct (ss_global_irpf st) as [g|];
    cbn -[deref PrimFloat.div module_heap];
    repeat split; try apply deref_fresh; reflexivity.
Qed.

Lemma get_month_config_layered_witness :
  let r := get_month_config june_state "2025-06" module_heap in
  irpf (fst r) = 0.2
  /\ prodFija (fst r) = 733.42
  /\ ccBaseWorker (bases (fst r)) = 2098.15
  /\ resolved_tranches r = [mkTranche 490.95 0.0015; mkTranche 1354.80 0.0017]
  /\ rates (fst r) = mkRates 27.07 29.47 47.11 0.5
  /\ ccRate (bases (fst r)) = 0.0483
  /\ fpRate (bases (fst r)) = 0.0010.
Proof.
  exact (get_month_config_layered june_state "2025-06" module_heap
           (ex_intro _ [] eq_refl)).
Defined.

(** ** C6: is the resolved configuration an independent copy? *)

Lemma get_month_config_heap st ym h :
  snd (get_month_config st ym h) = (h ++ [deref h TEMPLATE_SOLIDARITY])%list.
Proof. reflexivity. Qed.

(** The list object the resolved configuration refers to: the hardcoded
    override's own list when the month has one, else the fresh copy. *)
Lemma get_month_config_solidarity st ym h :
  solidarity (bases (fst (get_month_config st ym h))) =
    option_or (bind (hardcoded_bases ym) o_solidarity) (List.length h).
Proof.
  unfold hardcoded_bases.
  unfold get_month_config, json_roundtrip, alloc. cbv zeta. cbv beta iota.
  destruct (monthly_overrides_cases ym) as [E|[[_ E]|[[_ E]|[_ E]]]]; rewrite E;
    destruct (ss_month_configs st) as [mc|];
    try destruct (PyDict.get ym mc) as [[[i|] [p|]]|];
    destruct (ss_global_irpf st) as [g|];
    reflexivity.
Qed.

Lemma deref_write_other : forall (h : heap) l l' v,
  l <> l' -> deref (write l v h) l' = deref h l'.
Proof.
  unfold deref. induction h as [|x h IH]; intros l l' v Hne.
  - destruct l; reflexivity.
  - destruct l as [|l]; destruct l' as [|l']; simpl; try reflexivity.
    + congruence.
    + apply IH. congruence.
Qed.

(** For a month without a hardcoded tranche list the configuration holds a
    list of its own: writing through it changes no list that existed before
    the call, so neither the template nor the override table. *)
Lemma get_month_config_fresh_copy st ym h v :
  bind (hardcoded_bases ym) o_solidarity = None ->
  let r := get_month_config st ym h in
  forall l, (l < List.length h)%nat ->
    deref (write (solidarity (bases (fst r))) v (snd r)) l = deref h l.
Proof.
  intros Hnone r l Hl. subst r.
  rewrite get_month_config_solidarity, Hnone, get_month_config_heap. simpl.
  rewrite deref_write_other by lia.
  unfold deref. now rewrite app_nth1.
Qed.

(** The template's own list is never reachable from a resolved
    configuration. *)
Lemma get_month_config_keeps_template st ym v :
  let r := get_month_config st ym module_heap in
  deref (write (solidarity (bases (fst r))) v (snd r)) TEMPLATE_SOLIDARITY
  = default_tranches.
Proof.
  intros r. subst r. rewrite get_month_config_solidarity, get_month_config_heap.
  unfold hardcoded_bases.
  destruct (monthly_overrides_cases ym) as [E|[[_ E]|[[_ E]|[_ E]]]]; rewrite E;
    reflexivity.
Qed.

(** C6 fails for the months with a hardcoded tranche list.  The configuration
    resolved for June 2025 refers to the very list object of
    [MONTHLY_OVERRIDES["2025-06"]]: after a write through the configuration
    (here replacing the content by [v]) the override table shows [v] too. *)
Theorem get_month_config_shares_override :
  forall (st : SessionState) (v : list Tranche),
    let r := get_month_config st "2025-06" module_heap in
    solidarity (bases (fst r)) = JUN_SOLIDARITY
    /\ override_tranches (snd r) "2025-06"
       = Some [mkTranche 490.95 0.0015; mkTranche 1354.80 0.0017]
    /\ override_tranches (write (solidarity (bases (fst r))) v (snd r)) "2025-06"
       = Some v.
Proof.
  intros st v r. subst r.
  rewrite get_month_config_solidarity, get_month_config_heap.
  repeat split.
Qed.

(** ** C4: the payment schedule *)

Local Open Scope Z_scope.

Lemma Z_range_In lo n z : lo <= z < lo + Z.of_nat n -> In z (Z_range lo n).
Proof.
  intros H. unfold Z_range. apply in_map_iff.
  exists (Z.to_nat (z - lo)). split; [lia|]. apply in_seq. lia.
Qed.

(** All 120000 service months of the years 0 to 9999, checked by running the
    code: the year is split as [100 * c + d]. *)
Lemma next_month_agrees_all :
  forallb (fun c =>
    forallb (fun d =>
      forallb (next_month_agrees (100 * c + d)) (Z_range 1 12))
      (Z_range 0 100))
    (Z_range 0 100) = true.
Proof. vm_compute. reflexivity. Qed.

Lemma next_month_str_calendar y m :
  0 <= y <= 9999 -> 1 <= m <= 12 ->
  next_month_str (service_month y m) = Some (payment_month (calendar_next y m)).
Proof.
  intros Hy Hm.
  pose proof next_month_agrees_all as H.
  pose proof (Z.div_mod y 100 ltac:(lia)) as Hdm.
  pose proof (Z.mod_pos_bound y 100 ltac:(lia)) as Hmod.
  rewrite forallb_forall in H.
  specialize (H (y / 100) ltac:(apply Z_range_In; simpl; lia)).
  rewrite forallb_forall in H.
  specialize (H (y mod 100) ltac:(apply Z_range_In; simpl; lia)).
  rewrite forallb_forall in H.
  specialize (H m ltac:(apply Z_range_In; simpl; lia)).
  rewrite <- Hdm in H. unfold next_month_agrees in H.
  destruct (next_month_str (service_month y m)) as [pm|]; [|discriminate].
  apply String.eqb_eq in H. now subst.
Qed.

Local Open Scope float_scope.

Lemma payments_step_get fin pay sm pay' pm :
  payments_step fin pay sm = Some pay' ->
  exists n, neto_of fin sm = Some n /\
    PyDict.get pm pay' =
      if pays_in pm sm
      then let p := PyDict.get_default pm new_payment pay in
           Some (mkPayment (p_comp p + n) (p_from p ++ [sm]))
      else PyDict.get pm pay.
Proof.
  unfold payments_step, neto_of, pays_in.
  destruct (next_month_str sm) as [pm'|]; simpl; [|discriminate].
  destruct (PyDict.get sm fin) as [f|]; simpl; [|discriminate].
  intros [= <-]. exists (f_neto f). split; [reflexivity|].
  destruct (String.eqb pm' pm) eqn:E.
  - apply String.eqb_eq in E. subst pm'.
    rewrite PyDictFacts.get_modify_same, PyDictFacts.get_upsert_same. reflexivity.
  - apply String.eqb_neq in E.
    rewrite PyDictFacts.get_modify_other, PyDictFacts.get_upsert_other by assumption.
    reflexivity.
Qed.

Lemma payments_fold_get fin pm : forall months pay pay',
  foldM (payments_step fin) months pay = Some pay' ->
  exists nets, mapM (neto_of fin) (filter (pays_in pm) months) = Some nets /\
    PyDict.get pm pay' =
      match filter (pays_in pm) months with
      | [] => PyDict.get pm pay
      | l => let p := PyDict.get_default pm new_payment pay in
             Some (mkPayment (fold_left PrimFloat.add nets (p_comp p)) (p_from p ++ l))
      end.
Proof.
  induction months as [|sm r IH]; intros pay pay'; simpl.
  - intros [= <-]. exists []. split; reflexivity.
  - destruct (payments_step fin pay sm) as [pay1|] eqn:Es; simpl; [|discriminate].
    intros Hr. destruct (IH _ _ Hr) as (nets & Hn & Hget).
    destruct (payments_step_get _ _ _ _ pm Es) as (n & Hnet & Hget1).
    destruct (pays_in pm sm) eqn:Ein.
    + exists (n :: nets). simpl. rewrite Hnet, Hn. simpl. split; [reflexivity|].
      rewrite Hget. unfold PyDict.get_default. rewrite Hget1. simpl.
      destruct (filter (pays_in pm) r) as [|b l].
      * simpl in Hn. injection Hn as <-. reflexivity.
      * simpl. rewrite <- app_assoc. reflexivity.
    + exists nets. split; [assumption|].
      rewrite Hget. unfold PyDict.get_default. rewrite Hget1. reflexivity.
Qed.

Lemma payments_meet_spec months fin pay :
  payments months fin = Some pay -> payments_spec months fin pay.
Proof.
  intros Hp. unfold payments in Hp. split.
  - intros pm p Hget.
    destruct (payments_fold_get fin pm _ _ _ Hp) as (nets & Hn & Hg).
    rewrite Hget in Hg.
    destruct (filter (pays_in pm) months) as [|b l]; [discriminate|].
    simpl in Hg. injection Hg as ->. simpl. split; [reflexivity|].
    exists nets. split; [assumption | reflexivity].
  - intros sm Hin.
    assert (Hnext : exists pm, next_month_str sm = Some pm).
    { clear - Hp Hin. revert Hp. generalize (@nil (string * Payment)).
      induction months as [|x r IH]; intros pay0; simpl; [destruct Hin|].
      destruct (payments_step fin pay0 x) as [pay1|] eqn:Es; simpl; [|discriminate].
      destruct Hin as [->|Hin]; [|now apply IH].
      intros _. unfold payments_step in Es.
      destruct (next_month_str sm) as [pm|]; [now exists pm | discriminate]. }
    destruct Hnext as [pm Hpm]. exists pm.
    destruct (payments_fold_get fin pm _ _ _ Hp) as (nets & Hn & Hg).
    assert (Hf : In sm (filter (pays_in pm) months)).
    { apply filter_In. split; [assumption|]. unfold pays_in. rewrite Hpm.
      apply String.eqb_refl. }
    destruct (filter (pays_in pm) months) as [|b l]; [destruct Hf|].
    eexists. split; [exact Hpm|]. split; [exact Hg|]. exact Hf.
Qed.

(** *** The payment months the scheduler produces *)

Lemma all_chars_impl (p q : ascii -> bool) s :
  (forall c, p c = true -> q c = true) -> all_chars p s = true -> all_chars q s = true.
Proof.
  intros H. induction s as [|c s IH]; simpl; [reflexivity|].
  intros Hs. apply andb_true_iff in Hs. destruct Hs as [Hc Hs].
  rewrite (H c Hc), (IH Hs). reflexivity.
Qed.

(** No part of a split holds the separator. *)
Lemma split_parts_no_sep sep : forall s x,
  In x (split sep s) -> all_chars (not_char sep) x = true.
Proof.
  induction s as [|c s IH]; simpl; intros x Hx.
  - destruct Hx as [<-|[]]. reflexivity.
  - destruct (Ascii.eqb c sep) eqn:E.
    + destruct Hx as [<-|Hx]; [reflexivity | now apply IH].
    + destruct (split sep s) as [|y ys] eqn:Es.
      * destruct Hx as [<-|[]]. simpl. unfold not_char. now rewrite E.
      * destruct Hx as [<-|Hx].
        -- simpl. unfold not_char at 1. rewrite E. simpl. apply IH. now left.
        -- apply IH. now right.
Qed.

Lemma split_app_sep sep : forall a b,
  all_chars (not_char sep) a = true ->
  split sep (a ++ String sep b) = a :: split sep b.
Proof.
  induction a as [|c a IH]; simpl; intros b H.
  - now rewrite Ascii.eqb_refl.
  - apply andb_true_iff in H. destruct H as [Hc Ha].
    unfold not_char in Hc. apply negb_true_iff in Hc. rewrite Hc, (IH b Ha). reflexivity.
Qed.

Lemma lstrip_by_chars p q : forall s,
  all_chars p s = true -> all_chars p (lstrip_by q s) = true.
Proof.
  induction s as [|c s IH]; simpl; [reflexivity|].
  intros H. destruct (q c); [|exact H].
  apply andb_true_iff in H. now apply IH.
Qed.

Lemma rstrip_by_chars p q : forall s,
  all_chars p s = true -> all_chars p (rstrip_by q s) = true.
Proof.
  induction s as [|c s IH]; simpl; [reflexivity|].
  intros H. apply andb_true_iff in H. destruct H as [Hc Hs].
  specialize (IH Hs). destruct (rstrip_by q s) as [|c' r].
  - destruct (q c); simpl; [reflexivity | now rewrite Hc].
  - simpl in *. now rewrite Hc, IH.
Qed.

Lemma int_digits_nonneg : forall s b acc n v k,
  (0 <= acc)%Z -> int_digits s b acc n = Some (v, k) -> (0 <= v)%Z.
Proof.
  induction s as [|c s IH]; cbn [int_digits]; intros b acc n v k Hacc.
  - destruct b; [|discriminate]. intros [= <- _]. exact Hacc.
  - destruct (is_ascii_digit c) eqn:Ed.
    + apply IH. unfold is_ascii_digit in Ed.
      apply andb_true_iff in Ed. destruct Ed as [E1 _]. apply Z.leb_le in E1. lia.
    + destruct (Ascii.eqb c "_"); [|discriminate].
      destruct b; [|discriminate]. now apply IH.
Qed.

(** [int] of a string without a minus sign is never negative. *)
Lemma py_int_nonneg s v :
  all_chars (not_char "-") s = true -> py_int s = Some v -> (0 <= v)%Z.
Proof.
  intros Hs.
  apply (lstrip_by_chars _ is_int_space), (rstrip_by_chars _ is_int_space) in Hs.
  unfold py_int.
  assert (Hbody : forall r v',
    match int_digits r false 0 0 with
    | Some (v0, n) => if (n <=? INT_MAX_STR_DIGITS)%nat then Some v0 else None
    | None => None
    end = Some v' -> (0 <= v')%Z).
  { intros r v'. destruct (int_digits r false 0 0) as [[v0 n]|] eqn:E; [|discriminate].
    destruct (n <=? INT_MAX_STR_DIGITS)%nat; [|discriminate].
    intros [= <-]. eapply int_digits_nonneg; [|exact E]. lia. }
  destruct (rstrip_by is_int_space (lstrip_by is_int_space s)) as [|c r] eqn:Es.
  - apply Hbody.
  - destruct c as [[|] [|] [|] [|] [|] [|] [|] [|]]; try apply Hbody.
    simpl in Hs. discriminate Hs.
Qed.

(** [int] skips a no-break space but raises on the separator 0x1c, which
    [str.strip] does remove. *)
Example int_rejects_separator :
  py_int (String (ascii_of_nat 28) "5") = None
  /\ py_int (String (ascii_of_nat 160) "5 ") = Some 5%Z
  /\ next_month_str ("2025-" ++ String (ascii_of_nat 28) "5") = None
  /\ strip (String (ascii_of_nat 28) "5") = "5"%string.
Proof. vm_compute. repeat split. Qed.

Lemma string_of_uint_digits d :
  all_chars is_ascii_digit (NilEmpty.string_of_uint d) = true.
Proof. induction d; simpl; auto. Qed.

Lemma str_int_digits z : (0 <= z)%Z -> all_chars is_ascii_digit (str_int z) = true.
Proof.
  intros Hz. unfold str_int, NilZero.string_of_int.
  destruct z as [|p|p]; [reflexivity| |lia]. simpl.
  unfold NilZero.string_of_uint.
  destruct (Pos.to_uint p) eqn:E; try apply string_of_uint_digits. reflexivity.
Qed.

Lemma digit_not_dash c : is_ascii_digit c = true -> not_char "-" c = true.
Proof.
  destruct c as [[|] [|] [|] [|] [|] [|] [|] [|]]; vm_compute; congruence.
Qed.

(** Whenever [next_month_str] returns, what it returns is a month 1 to 12 of
    a year that is not negative. *)
Lemma next_month_str_range s pm :
  next_month_str s = Some pm ->
  exists y m, (0 <= y)%Z /\ (1 <= m <= 12)%Z /\ pm = payment_month (y, m).
Proof.
  unfold next_month_str.
  pose proof (split_parts_no_sep "-" s) as Hparts.
  destruct (split "-" s) as [|ys [|ms [|z rest]]]; try discriminate.
  destruct (py_int ys) as [y|] eqn:Ey; simpl; [|discriminate].
  destruct (py_int ms) as [m|] eqn:Em; simpl; [|discriminate].
  assert (Hy : (0 <= y)%Z)
    by (apply (py_int_nonneg ys); [apply Hparts; simpl; auto | exact Ey]).
  assert (Hm : (0 <= m)%Z)
    by (apply (py_int_nonneg ms); [apply Hparts; simpl; auto | exact Em]).
  destruct (12 <? m + 1)%Z eqn:E; intros [= <-].
  - exists (y + 1)%Z, 1%Z. repeat split; lia.
  - apply Z.ltb_ge in E. exists y, (m + 1)%Z. repeat split; lia.
Qed.

(** Such a payment month has its entry in the typical table. *)
Lemma typical_of_month y m :
  (0 <= y)%Z -> (1 <= m <= 12)%Z ->
  exists v, PyDict.get (fmt_0d 2 m) TYPICAL_NORMAL_BY_MONTH = Some v
            /\ typical_of (payment_month (y, m)) = Some v.
Proof.
  intros Hy Hm. unfold typical_of, payment_month. cbn [fst snd String.append].
  rewrite split_app_sep
    by (eapply all_chars_impl; [apply digit_not_dash | now apply str_int_digits]).
  assert (Hc : (m = 1 \/ m = 2 \/ m = 3 \/ m = 4 \/ m = 5 \/ m = 6 \/ m = 7 \/ m = 8
                \/ m = 9 \/ m = 10 \/ m = 11 \/ m = 12)%Z) by lia.
  destruct Hc as [->|[->|[->|[->|[->|[->|[->|[->|[->|[->|[->| ->]]]]]]]]]]];
    (eexists; split; [vm_compute; reflexivity | reflexivity]).
Qed.

Lemma typical_normal_val pm v ovr chk inp :
  typical_of pm = Some v -> normal_val pm ovr chk inp <> None.
Proof.
  unfold typical_of, normal_val.
  destruct (split "-" pm) as [|x [|mm rest]]; try discriminate.
  intros _. destruct (widget chk _); [destruct (negb _)|]; discriminate.
Qed.

(** Every entry of the projection is the payment month of a service
    month. *)
Lemma payments_entry_scheduled months fin pay pm :
  payments months fin = Some pay -> PyDict.get pm pay <> None ->
  exists sm, In sm months /\ next_month_str sm = Some pm.
Proof.
  intros Hp Hget. unfold payments in Hp.
  destruct (payments_fold_get fin pm _ _ _ Hp) as (nets & _ & Hg).
  destruct (filter (pays_in pm) months) as [|sm l] eqn:Ef; [simpl in Hg; congruence|].
  assert (Hin : In sm (filter (pays_in pm) months)) by (rewrite Ef; now left).
  apply filter_In in Hin. destruct Hin as [Hin Hpay]. exists sm. split; [assumption|].
  unfold pays_in in Hpay. destruct (next_month_str sm) as [pm'|]; [|discriminate].
  apply String.eqb_eq in Hpay. now subst.
Qed.

(** For every entry of the projection the loop body produces its view: the
    normal amount is the one [normal_val] gives, the complementary amount is
    the entry's, and the total is their sum. *)
Lemma payment_view_of_entry months fin pay pm p ovr chk inp :
  payments months fin = Some pay ->
  PyDict.get pm pay = Some p ->
  exists n ovr',
    normal_val pm ovr chk inp = Some (n, ovr')
    /\ payment_view pm pay ovr chk inp
       = Some (mkView n (p_comp p) (n + p_comp p), ovr').
Proof.
  intros Hp Hget.
  destruct (payments_entry_scheduled months fin pay pm Hp) as (sm & _ & Hn);
    [congruence|].
  destruct (next_month_str_range _ _ Hn) as (y & m & Hy & Hm & ->).
  destruct (typical_of_month y m Hy Hm) as (v & _ & Htyp).
  pose proof (typical_normal_val _ _ ovr chk inp Htyp) as Hnv.
  destruct (normal_val (payment_month (y, m)) ovr chk inp) as [[n ovr']|] eqn:En;
    [|congruence].
  exists n, ovr'. split; [reflexivity|].
  unfold payment_view. rewrite Hget, En. reflexivity.
Qed.

(** C4. (1) Every service month "YYYY-MM" (year 0 to 9999, month 1 to 12)
    maps to the calendar-next month, December to January of the next year;
    the result is written with the year in plain decimal and the month on two
    digits.  (2) "2025-12" maps to "2026-01" and "2025-06" to "2025-07".
    (3) For every payment month the complementary amount is the sum of the
    nets of the service months mapping to it, however many they are.
    (4) For every payment month of the projection, whatever the override
    table and the widgets hold, the view is produced: its normal amount is
    the one [normal_val] gives, its complementary amount is the entry's and
    its total is normal + complementary. *)
Theorem payment_schedule :
  (forall y m, (0 <= y <= 9999)%Z -> (1 <= m <= 12)%Z ->
     next_month_str (service_month y m) = Some (payment_month (calendar_next y m)))
  /\ (next_month_str "2025-12" = Some "2026-01"%string
      /\ next_month_str "2025-06" = Some "2025-07"%string)
  /\ (forall months fin pay,
        payments months fin = Some pay -> payments_spec months fin pay)
  /\ (forall months fin pay pm p ovr chk inp,
        payments months fin = Some pay ->
        PyDict.get pm pay = Some p ->
        exists n ovr',
          normal_val pm ovr chk inp = Some (n, ovr')
          /\ payment_view pm pay ovr chk inp
             = Some (mkView n (p_comp p) (n + p_comp p), ovr')).
Proof.
  split; [exact next_month_str_calendar|].
  split; [split; vm_compute; reflexivity|].
  split; [exact payments_meet_spec | exact payment_view_of_entry].
Qed.

(** Two service months paying out in the same payment month are added up;
    December pays out in January of the next year. *)
Example two_to_one_projection :
  payment_projection two_to_one_state module_heap
  = Some [ ("2025-06"%string, mkPayment 1225.2121040000002 ["02025-5"; "2025-05"]%string);
           ("2026-01"%string, mkPayment 929.32505200000014 ["2025-12"%string]) ].
Proof. vm_compute. reflexivity. Qed.

(** The theorem at December 2025 and at the projection above, whose payment
    month June 2025 is shown with the typical amount of June. *)
Lemma payment_schedule_witness :
  next_month_str (service_month 2025 12) = Some (payment_month (2026, 1)%Z)
  /\ (exists pay,
        payments ["02025-5"; "2025-05"; "2025-12"]%string two_to_one_fin = Some pay
        /\ payments_spec ["02025-5"; "2025-05"; "2025-12"]%string two_to_one_fin pay
        /\ exists n ovr',
             normal_val "2025-06" [] None None = Some (n, ovr')
             /\ payment_view "2025-06" pay [] None None
                = Some (mkView n 1225.2121040000002 (n + 1225.2121040000002), ovr')).
Proof.
  destruct payment_schedule as (Hnext & _ & Hpay & Hview).
  split.
  - apply (Hnext 2025 12)%Z; lia.
  - eexists. split; [vm_compute; reflexivity|].
    split; [apply Hpay; vm_compute; reflexivity|].
    apply (Hview ["02025-5"; "2025-05"; "2025-12"]%string two_to_one_fin _
                 "2025-06"%string
                 (mkPayment 1225.2121040000002 ["02025-5"; "2025-05"]%string)
                 [] None None).
    + vm_compute. reflexivity.
    + vm_compute. reflexivity.
Defined.

(** The view of June 2025 in that projection. *)
Example june_payment_view :
  option_map fst
    (p <- payment_projection two_to_one_state module_heap ;;
     payment_view "2025-06" p [] None None)
  = Some (mkView 1377.95 1225.2121040000002 2603.162104).
Proof. vm_compute. reflexivity. Qed.

(** ** C10: a stored override that is not positive *)

(** C10, as the code has it.  Let the override table hold for [pm] a value
    that is not strictly positive, and let [absent] be any table without an
    entry for [pm].
    Whatever the user left in the two widgets, the normal amount used is the
    one computed from [absent]; and unless the user both ticked the manual
    box and typed a value, it is the typical amount of the month (the table
    entry of the month number, else 1500.00). *)
Theorem nonpositive_override_is_absent :
  forall (pm : string) (ovr absent : PyDict.t float) (v : float)
         (chk : option bool) (inp : option float),
    PyDict.get pm ovr = Some v ->
    (0 <? v) = false ->
    PyDict.get pm absent = None ->
    option_map fst (normal_val pm ovr chk inp)
    = option_map fst (normal_val pm absent chk inp)
    /\ (chk <> Some true \/ inp = None ->
        option_map fst (normal_val pm ovr chk inp) = typical_of pm).
Proof.
  intros pm ovr absent v chk inp Hv Hnp Habs.
  unfold normal_val, typical_of, PyDict.get_default.
  rewrite Hv, Habs, Hnp.
  assert (H0 : (0 <? 0.0) = false) by reflexivity. rewrite H0.
  destruct (split "-" pm) as [|x [|mm rest]]; [split; reflexivity .. |].
  split.
  - destruct (widget chk false); [|reflexivity].
    destruct (negb (widget inp _ =? v)), (negb (widget inp _ =? 0.0)); reflexivity.
  - intros Hw.
    destruct chk as [[|]|]; simpl; try reflexivity.
    destruct Hw as [Hw | ->]; [congruence|]. simpl.
    destruct (negb (_ =? v)); reflexivity.
Qed.

(** The theorem at November 2025 with a stored override of -5. *)
Lemma nonpositive_override_is_absent_witness :
  option_map fst (normal_val "2025-11" [("2025-11"%string, -5)] None None)
  = option_map fst (normal_val "2025-11" [] None None)
  /\ (None <> Some true \/ @None float = None ->
      option_map fst (normal_val "2025-11" [("2025-11"%string, -5)] None None)
      = typical_of "2025-11").
Proof.
  exact (nonpositive_override_is_absent "2025-11" [("2025-11"%string, -5)] [] (-5)
           None None eq_refl eq_refl eq_refl).
Defined.

(** Without the condition on the widgets the fall-back fails: with a stored
    -5 for November 2025, the manual box ticked and 1700 typed, the amount
    used is the typed 1700 and not the typical 1561.30. *)
Lemma nonpositive_override_typed_value :
  PyDict.get "2025-11" [("2025-11"%string, -5)] = Some (-5)
  /\ (0 <? -5) = false
  /\ option_map fst
       (normal_val "2025-11" [("2025-11"%string, -5)] (Some true) (Some 1700))
     = Some 1700
  /\ typical_of "2025-11" = Some 1561.30
  /\ option_map fst
       (normal_val "2025-11" [("2025-11"%string, -5)] (Some true) (Some 1700))
     <> typical_of "2025-11".
Proof.
  repeat split; try (vm_compute; reflexivity).
  intros H.
  apply (f_equal (fun o => match o with
                           | Some v => PrimFloat.eqb v 1700
                           | None => false
                           end)) in H.
  vm_compute in H. discriminate H.
Qed.

Example november_normal_defaults :
  option_map fst (normal_val "2025-11" [("2025-11"%string, -5)] None None) = Some 1561.30
  /\ option_map fst (normal_val "2025-11" [("2025-11"%string, 1600)] None None) = Some 1600
  /\ typical_of "2025-13" = Some 1500.00.
Proof. vm_compute. repeat split. Qed.

(** ** C9: the shift types of bulk-generated events *)

Local Open Scope Z_scope.

Lemma classify_date_weekday d : weekday_type d.
Proof.
  unfold weekday_type, classify_date.
  assert (Hwd : 0 <= weekday d < 7) by (unfold weekday; apply Z.mod_pos_bound; lia).
  destruct (weekday d =? 6) eqn:E6; [apply Z.eqb_eq in E6; auto 6|].
  destruct (weekday d =? 5) eqn:E5; [apply Z.eqb_eq in E5; auto 6|].
  destruct (weekday d =? 4) eqn:E4; [apply Z.eqb_eq in E4; auto 6|].
  apply Z.eqb_neq in E6, E5, E4. left. split; [lia | reflexivity].
Qed.

Lemma classify_date_registered d :
  In (classify_date d) bulk_types
  /\ PyDict.get (classify_date d) ACT_MODELS <> None.
Proof.
  destruct (classify_date_weekday d) as [[_ ->]|[[_ ->]|[[_ ->]|[_ ->]]]];
    (split; [simpl; auto 6 | discriminate]).
Qed.

Lemma date_new_ok y m n t : date_new y m n = DateOk t -> t = mkDate y m n.
Proof.
  unfold date_new.
  destruct (negb _); [discriminate|].
  destruct (_ && _); [|discriminate]. now intros [= <-].
Qed.

Section BulkFacts.
Variable uuid4 : nat -> string.
Variable q_month : PyDate.

(** The loop only appends, what it appends is bulk-generated, and a
    reported count is the number of acts appended. *)
Lemma bulk_loop_appends : forall days drawn acts count acts' r,
  bulk_loop uuid4 q_month days drawn acts count = (acts', r) ->
  exists new,
    acts' = (acts ++ new)%list
    /\ Forall bulk_generated new
    /\ (forall c, r = Some c -> c = (count + List.length new)%nat).
Proof.
  induction days as [|d rest IH]; intros drawn acts count acts' r; simpl.
  - intros [= <- <-]. exists []. rewrite app_nil_r.
    split; [reflexivity|]. split; [constructor|].
    intros c [= <-]. simpl. lia.
  - destruct (py_int d) as [n|]; [|apply IH].
    destruct (date_new (d_year q_month) (d_month q_month) n) as [t| |] eqn:Ed.
    + intros Hr. destruct (IH _ _ _ _ _ Hr) as (new & -> & Hall & Hc).
      eexists (_ :: new). rewrite <- app_assoc. split; [reflexivity|].
      split.
      * constructor; [|assumption].
        exists t. pose proof (date_new_ok _ _ _ _ Ed) as Ht.
        split; [subst t; exact Ed|]. repeat split.
      * intros c Hrc. rewrite (Hc c Hrc). simpl. lia.
    + apply IH.
    + intros [= <- <-]. exists []. rewrite app_nil_r.
      split; [reflexivity|]. split; [constructor|]. discriminate.
Qed.

Lemma submitted_auto_appends q_days drawn acts :
  exists new,
    fst (submitted_auto uuid4 q_month q_days drawn acts) = (acts ++ new)%list
    /\ Forall bulk_generated new
    /\ (forall c, snd (submitted_auto uuid4 q_month q_days drawn acts) = Reported c ->
          c = List.length new).
Proof.
  unfold submitted_auto. destruct q_days as [|c0 s].
  - exists []. rewrite app_nil_r. simpl.
    split; [reflexivity|]. split; [constructor | discriminate].
  - destruct (bulk_loop uuid4 q_month (days_list (String c0 s)) drawn acts 0)
      as [acts' r] eqn:E.
    destruct (bulk_loop_appends _ _ _ _ _ _ E) as (new & -> & Hall & Hc).
    exists new. destruct r as [c|]; simpl.
    + split; [reflexivity|]. split; [assumption|].
      intros c' [= <-]. now rewrite (Hc c eq_refl).
    + split; [reflexivity|]. split; [assumption | discriminate].
Qed.

End BulkFacts.

Lemma bulk_generated_has_model acts :
  Forall bulk_generated acts -> Forall (fun a => model_of a <> None) acts.
Proof.
  apply Forall_impl. intros a (d & _ & _ & Ht & _).
  unfold model_of. rewrite Ht. apply classify_date_registered.
Qed.

(** C9. Starting from a collection of bulk-generated events (in particular
    from none), whatever is typed in the form, every event in the collection
    afterwards is bulk-generated: its type is the one of its weekday (Monday
    to Thursday [G_LJ], Friday [G_VIERNES], Saturday [G_SABADO], Sunday
    [G_DOMINGO]), that type is in the shift-model table, and the aggregation
    of the collection does not fail. *)
Theorem bulk_events_aggregate :
  forall (uuid4 : nat -> string) (q_month : PyDate) (q_days : string)
         (drawn : nat) (acts : list Act),
    Forall bulk_generated acts ->
    let acts' := fst (submitted_auto uuid4 q_month q_days drawn acts) in
    Forall bulk_generated acts'
    /\ (forall a, bulk_generated a ->
          In (a_type a) bulk_types
          /\ PyDict.get (a_type a) ACT_MODELS <> None
          /\ exists d, a_date a = strftime_ymd d /\ a_type a = classify_date d
                       /\ weekday_type d)
    /\ exists agg, aggregated_by_month acts' = Some agg.
Proof.
  intros uuid4 q_month q_days drawn acts Hacts acts'.
  destruct (submitted_auto_appends uuid4 q_month q_days drawn acts) as (new & Hnew & Hall & _).
  assert (Hall' : Forall bulk_generated acts').
  { subst acts'. rewrite Hnew. apply Forall_app. split; assumption. }
  split; [exact Hall'|]. split.
  - intros a (d & Hd & Hdate & Ht & Hs). rewrite Ht.
    destruct (classify_date_registered d) as [Hin Hreg].
    split; [exact Hin|]. split; [exact Hreg|].
    exists d. split; [exact Hdate|]. split; [reflexivity|]. apply classify_date_weekday.
  - apply aggregate_succeeds. apply bulk_generated_has_model. exact Hall'.
Qed.

(** The theorem at the days "2, 8, 14, 25" of November 2025, from no acts. *)
Lemma bulk_events_aggregate_witness :
  let acts' :=
    fst (submitted_auto sample_uuid4 (mkDate 2025 11 4) "2, 8, 14, 25" 0 []) in
  Forall bulk_generated acts'
  /\ (forall a, bulk_generated a ->
        In (a_type a) bulk_types
        /\ PyDict.get (a_type a) ACT_MODELS <> None
        /\ exists d, a_date a = strftime_ymd d /\ a_type a = classify_date d
                     /\ weekday_type d)
  /\ exists agg, aggregated_by_month acts' = Some agg.
Proof.
  exact (bulk_events_aggregate sample_uuid4 (mkDate 2025 11 4) "2, 8, 14, 25" 0 []
           (Forall_nil _)).
Defined.

Example november_bulk_entry :
  submitted_auto sample_uuid4 (mkDate 2025 11 4) "2, 8, 14, 25" 0 []
  = ([ mkAct "act-0" "2025-11-02" "G_DOMINGO" false;
       mkAct "act-1" "2025-11-08" "G_SABADO" false;
       mkAct "act-2" "2025-11-14" "G_VIERNES" false;
       mkAct "act-3" "2025-11-25" "G_LJ" false ], Reported 4).
Proof. vm_compute. reflexivity. Qed.

(** ** C8: days that are not dates of the chosen month *)

(** With every day number within the range of a C int, the loop passes over
    the tokens that are not dates of the month, appends one act per token
    that is, in order, and ends with their number as the count. *)
Lemma bulk_loop_in_range uuid4 q_month : forall days drawn acts count,
  days_fit_c_int days ->
  fits_c_int (d_year q_month) = true -> fits_c_int (d_month q_month) = true ->
  exists new,
    bulk_loop uuid4 q_month days drawn acts count
    = ((acts ++ new)%list, Some (count + List.length new)%nat)
    /\ map a_date new = map strftime_ymd (valid_dates q_month days)
    /\ map a_type new = map classify_date (valid_dates q_month days).
Proof.
  induction days as [|d rest IH]; intros drawn acts count Hall Hy Hm; simpl.
  - exists []. rewrite app_nil_r, Nat.add_0_r. repeat split.
  - inversion Hall as [|? ? Hd Hrest]; subst.
    destruct (py_int d) as [n|]; [|now apply IH].
    specialize (Hd n eq_refl).
    unfold date_new. rewrite Hy, Hm, Hd. cbn [andb negb].
    destruct (_ && _); [|now apply IH].
    match goal with
    | |- context [bulk_loop _ _ _ ?dr (acts ++ [?a])%list ?c] =>
        destruct (IH dr (acts ++ [a])%list c Hrest Hy Hm) as (new & Hl & Hdates & Htypes)
    end.
    eexists (_ :: new). rewrite Hl, <- app_assoc. simpl.
    rewrite Hdates, Htypes, Nat.add_succ_r. repeat split.
Qed.

(** The instance of the specification: "2, 31" in the 30-day month November
    2025 gives one act and reports 1. *)
Example bulk_entry_2_31 :
  submitted_auto sample_uuid4 (mkDate 2025 11 4) "2, 31" 0 []
  = ([mkAct "act-0" "2025-11-02" "G_DOMINGO" false], Reported 1).
Proof. vm_compute. reflexivity. Qed.

(** C8 fails on a day number beyond the range of a C int.  For the days
    "2, 4294967296" the act of day 2 is appended, then [datetime.date] raises
    [OverflowError], which [except ValueError] does not catch: the day is not
    skipped, the days after it are not generated and no count is reported. *)
Theorem bulk_entry_overflow_day_raises :
  submitted_auto sample_uuid4 (mkDate 2025 11 4) "2, 4294967296, 8" 0 []
  = ([mkAct "act-0" "2025-11-02" "G_DOMINGO" false], Raised).
Proof. vm_compute. reflexivity. Qed.

(** * Further properties *)

Local Open Scope Z_scope.

(** ** Sessions built through the forms *)

Lemma fmt_year_length_all :
  forallb (fun c =>
    forallb (fun d => (String.length (fmt_0d 4 (100 * c + d)) =? 4)%nat) (Z_range 0 100))
    (Z_range 0 100) = true.
Proof. vm_compute. reflexivity. Qed.

Lemma fmt_year_length y : 0 <= y <= 9999 -> String.length (fmt_0d 4 y) = 4%nat.
Proof.
  intros Hy. pose proof fmt_year_length_all as H.
  pose proof (Z.div_mod y 100 ltac:(lia)) as Hdm.
  pose proof (Z.mod_pos_bound y 100 ltac:(lia)) as Hmod.
  rewrite forallb_forall in H.
  specialize (H (y / 100) ltac:(apply Z_range_In; simpl; lia)).
  rewrite forallb_forall in H.
  specialize (H (y mod 100) ltac:(apply Z_range_In; simpl; lia)).
  rewrite <- Hdm in H. now apply Nat.eqb_eq in H.
Qed.

Lemma fmt_month_length m : 1 <= m <= 12 -> String.length (fmt_0d 2 m) = 2%nat.
Proof.
  intros Hm.
  assert (Hc : m = 1 \/ m = 2 \/ m = 3 \/ m = 4 \/ m = 5 \/ m = 6 \/ m = 7 \/ m = 8
               \/ m = 9 \/ m = 10 \/ m = 11 \/ m = 12) by lia.
  destruct Hc as [->|[->|[->|[->|[->|[->|[->|[->|[->|[->|[->| ->]]]]]]]]]]]; reflexivity.
Qed.

Lemma substring_prefix : forall p q, substring 0 (String.length p) (p ++ q) = p.
Proof.
  induction p as [|c p IH]; intros q; simpl.
  - destruct q; reflexivity.
  - now rewrite IH.
Qed.

Lemma append_assoc : forall a b c : string, ((a ++ b) ++ c = a ++ (b ++ c))%string.
Proof. induction a as [|x a IH]; intros b c; simpl; [reflexivity | now rewrite IH]. Qed.

Lemma append_length : forall a b : string,
  String.length (a ++ b) = (String.length a + String.length b)%nat.
Proof. induction a as [|x a IH]; intros b; simpl; [reflexivity | now rewrite IH]. Qed.

Lemma valid_date_ranges d :
  valid_date d -> 1 <= d_year d <= 9999 /\ 1 <= d_month d <= 12.
Proof.
  unfold valid_date, date_new.
  destruct (negb _); [discriminate|].
  destruct (_ && _) eqn:E; [|discriminate]. intros _.
  repeat (apply andb_true_iff in E; destruct E as [E ?]).
  repeat match goal with H : (_ <=? _) = true |- _ => apply Z.leb_le in H end. lia.
Qed.

(** The first seven characters of a stored date are the service month. *)
Lemma year_month_strftime d :
  valid_date d -> year_month (strftime_ymd d) = service_month (d_year d) (d_month d).
Proof.
  intros Hv. destruct (valid_date_ranges d Hv) as [Hy Hm].
  unfold year_month, strftime_ymd, service_month.
  set (a := fmt_0d 4 (d_year d)). set (b := fmt_0d 2 (d_month d)).
  replace (a ++ "-" ++ b ++ "-" ++ fmt_0d 2 (d_day d))%string
    with ((a ++ "-" ++ b) ++ "-" ++ fmt_0d 2 (d_day d))%string
    by (rewrite !append_assoc; reflexivity).
  replace 7%nat with (String.length (a ++ "-" ++ b)).
  - apply substring_prefix.
  - rewrite append_length. subst a b. rewrite fmt_year_length by lia.
    simpl. now rewrite fmt_month_length.
Qed.

Lemma form_act_next_month a :
  form_act a -> next_month_str (year_month (a_date a)) <> None.
Proof.
  intros (_ & d & Hv & ->). rewrite year_month_strftime by assumption.
  destruct (valid_date_ranges d Hv) as [Hy Hm].
  rewrite next_month_str_calendar by lia. discriminate.
Qed.

Lemma payments_succeed fin : forall months pay0,
  (forall sm, In sm months -> next_month_str sm <> None /\ PyDict.get sm fin <> None) ->
  exists pay, foldM (payments_step fin) months pay0 = Some pay.
Proof.
  induction months as [|sm r IH]; intros pay0 Hall; simpl.
  - eexists. reflexivity.
  - destruct (Hall sm (or_introl eq_refl)) as [Hn Hf].
    unfold payments_step at 1.
    destruct (next_month_str sm) as [pm|]; [|congruence].
    destruct (PyDict.get sm fin) as [f|]; [|congruence]. simpl.
    apply IH. intros x Hx. apply Hall. now right.
Qed.

(** Every key of the aggregate is the month of one of the acts. *)
Lemma aggregated_key_act acts agg ym :
  aggregated_by_month acts = Some agg ->
  PyDict.get ym agg <> None ->
  exists a, In a acts /\ year_month (a_date a) = ym.
Proof.
  intros Hagg Hget. destruct (aggregated_entry _ _ ym Hagg) as (ms & _ & Hg).
  destruct (filter (in_month ym) acts) as [|a l] eqn:Ef; [congruence|].
  assert (Hin : In a (filter (in_month ym) acts)) by (rewrite Ef; now left).
  apply filter_In in Hin. destruct Hin as [Hin Hm].
  exists a. split; [assumption|]. now apply String.eqb_eq in Hm.
Qed.

(** A session whose acts all come from the forms runs to the end. *)
Lemma form_acts_projection st h :
  Forall form_act (ss_acts st) ->
  exists agg fin h' pay,
    compute st h = Some (agg, fin, h')
    /\ payments (sorted_months agg) fin = Some pay.
Proof.
  intros Hall.
  destruct (aggregate_succeeds (ss_acts st) []) as [agg Hagg].
  { eapply Forall_impl; [|exact Hall]. now intros a [Hm _]. }
  fold (aggregated_by_month (ss_acts st)) in Hagg.
  destruct (financials_succeed st _ _ h Hagg) as (fin & h' & Hfin).
  destruct (payments_succeed fin (sorted_months agg) []) as [pay Hpay].
  { intros sm Hin. split.
    - apply sorted_In, PyDictFacts.get_In_keys in Hin.
      destruct (aggregated_key_act _ _ _ Hagg Hin) as (a & Ha & <-).
      apply form_act_next_month. rewrite Forall_forall in Hall. auto.
    - unfold financials_by_month in Hfin.
      apply (financials_fold_keeps _ _ _ _ _ _ _ Hfin). now right. }
  exists agg, fin, h', pay. split; [|exact Hpay].
  rewrite compute_unfold, Hagg, Hfin. reflexivity.
Qed.

Lemma initial_acts_form uuid4 : Forall form_act (initial_acts uuid4).
Proof.
  unfold initial_acts.
  repeat constructor; try discriminate.
  - exists (mkDate 2025 10 3). split; reflexivity.
  - exists (mkDate 2025 10 7). split; reflexivity.
  - exists (mkDate 2025 10 15). split; reflexivity.
  - exists (mkDate 2025 10 20). split; reflexivity.
  - exists (mkDate 2025 10 27). split; reflexivity.
  - exists (mkDate 2025 10 30). split; reflexivity.
Qed.

Lemma bulk_generated_form a : bulk_generated a -> form_act a.
Proof.
  intros (d & Hd & Hdate & Ht & _). split.
  - unfold model_of. rewrite Ht. apply classify_date_registered.
  - exists d. split; assumption.
Qed.

Lemma run_action_form uuid4 s a :
  action_ok a -> Forall form_act (fst s) -> Forall form_act (fst (run_action uuid4 s a)).
Proof.
  destruct s as [acts drawn].
  destruct a as [d t|q days|id|]; cbn [run_action fst action_ok]; intros Hok Hall.
  - destruct Hok as [Hv Ht]. unfold add_manual. apply Forall_app. split; [assumption|].
    constructor; [|constructor]. split.
    + unfold model_of. cbn [a_type]. now apply PyDictFacts.get_In_keys.
    + exists d. split; [assumption | reflexivity].
  - destruct (submitted_auto_appends uuid4 q days drawn acts) as (new & -> & Hnew & _).
    apply Forall_app. split; [assumption|].
    eapply Forall_impl; [|exact Hnew]. apply bulk_generated_form.
  - unfold delete_act. apply Forall_forall. intros x Hx.
    apply filter_In in Hx. rewrite Forall_forall in Hall. now apply Hall.
  - constructor.
Qed.

Lemma acts_after_form uuid4 actions :
  Forall action_ok actions -> Forall form_act (acts_after uuid4 actions).
Proof.
  unfold acts_after.
  assert (H : forall s, Forall action_ok actions -> Forall form_act (fst s) ->
            Forall form_act (fst (fold_left (run_action uuid4) actions s))).
  { induction actions as [|a r IH]; intros s Hok Hs; simpl; [assumption|].
    inversion Hok; subst. apply IH; [assumption|]. now apply run_action_form. }
  intros Hok. apply H; [assumption|]. apply initial_acts_form.
Qed.

Local Open Scope float_scope.

(** ** A month's configuration and lines in closed form *)

Lemma heap_extends_alloc (h : heap) v :
  heap_extends module_heap h -> heap_extends module_heap (h ++ [v])%list.
Proof. intros [ext ->]. exists (ext ++ [v])%list. now rewrite app_assoc. Qed.

(** The resolved configuration as a record, and the tranches it refers to. *)
Lemma get_month_config_value st ym h :
  heap_extends module_heap h ->
  let r := get_month_config st ym h in
  irpf (fst r) = resolved_irpf st ym
  /\ rates (fst r) = rates DEFAULT_CONFIG_TEMPLATE
  /\ prodFija (fst r) = resolved_prodFija st ym
  /\ ccBaseWorker (bases (fst r)) = month_base ym
  /\ ccRate (bases (fst r)) = 0.0483
  /\ fpRate (bases (fst r)) = 0.0010
  /\ resolved_tranches r = month_tranches ym.
Proof.
  intros [ext ->].
  unfold resolved_irpf, resolved_prodFija, month_base, month_tranches.
  unfold resolved_tranches, hardcoded_bases, user_patch.
  unfold get_month_config, json_roundtrip, alloc. cbv zeta. cbv beta iota.
  destruct (monthly_overrides_cases ym) as [E|[[_ E]|[[_ E]|[_ E]]]]; rewrite E;
    destruct (ss_month_configs st) as [mc|];
    try destruct (PyDict.get ym mc) as [[[i|] [p|]]|];
    destruct (ss_global_irpf st) as [g|];
    cbn -[deref PrimFloat.div module_heap];
    repeat split; try apply deref_fresh; reflexivity.
Qed.

(** The lines of a month as functions of the resolved values. *)
Lemma month_financials_value st ym data h f h' :
  heap_extends module_heap h ->
  month_financials st ym data h = Some (f, h') ->
  exists acc,
    foldM (dev_step DEFAULT_CONFIG_TEMPLATE) (g_acts data) (mkAcc 0.0 0.0 0.0) = Some acc
    /\ f_hours f = g_hours data
    /\ f_dev f = (let pf := resolved_prodFija st ym in
                  mkDev (acc024 acc) (acc025 acc) (acc180 acc) pf
                        (acc024 acc + acc025 acc + acc180 acc + pf))
    /\ f_desc f = (let total := devTotal (f_dev f) in
                   let cc := month_base ym * 0.0483 in
                   let fp := month_base ym * 0.0010 in
                   let sol := cuotSol_of (month_tranches ym) in
                   let tax := total * resolved_irpf st ym in
                   mkDesc tax cc fp sol (tax + cc + fp + sol))
    /\ f_neto f = devTotal (f_dev f) - desc_Total (f_desc f)
    /\ heap_extends module_heap h'.
Proof.
  intros Hext. unfold month_financials.
  pose proof (get_month_config_value st ym h Hext) as Hv.
  pose proof (get_month_config_heap st ym h) as Hh.
  destruct (get_month_config st ym h) as [cfg h1]. cbn [fst snd] in Hv, Hh.
  destruct Hv as (Hi & Hr & Hp & Hb & Hc & Hf & Ht). unfold resolved_tranches in Ht.
  cbn [fst snd] in Ht.
  assert (Hstep : forall l acc, foldM (dev_step cfg) l acc
                                = foldM (dev_step DEFAULT_CONFIG_TEMPLATE) l acc).
  { induction l as [|a l IH]; intros acc; simpl; [reflexivity|].
    unfold dev_step at 1 3. rewrite Hr.
    destruct (PyDict.get (a_type a) ACT_MODELS); simpl; [apply IH | reflexivity]. }
  rewrite Hstep.
  destruct (foldM (dev_step DEFAULT_CONFIG_TEMPLATE) (g_acts data) _) as [acc|];
    simpl; [|discriminate].
  intros [= <- <-]. exists acc. cbn [f_hours f_dev f_desc f_neto devTotal desc_Total].
  rewrite Hi, Hp, Hb, Hc, Hf, Ht.
  repeat split. subst h1. now apply heap_extends_alloc.
Qed.

Section FinancialsLoopHeap.
Variables (st : SessionState) (agg : PyDict.t MonthAgg).

(** Where an entry of the result comes from, when the run starts from a heap
    that extends the module's. *)
Lemma financials_fold_origin_heap : forall months fin0 h0 fin h',
  heap_extends module_heap h0 ->
  foldM (financials_step st agg) months (fin0, h0) = Some (fin, h') ->
  forall ym f, PyDict.get ym fin = Some f ->
    PyDict.get ym fin0 = Some f
    \/ (exists data h1 h2,
          heap_extends module_heap h1
          /\ PyDict.get ym agg = Some data
          /\ month_financials st ym data h1 = Some (f, h2)).
Proof.
  induction months as [|m months IH]; intros fin0 h0 fin h' Hext; simpl.
  - intros [= <- <-] ym f Hf. left. assumption.
  - destruct (PyDict.get m agg) as [data|] eqn:Ed; simpl; [|discriminate].
    destruct (month_financials st m data h0) as [[f0 h1]|] eqn:Em; simpl; [|discriminate].
    intros Hr ym f Hf.
    destruct (month_financials_value _ _ _ _ _ _ Hext Em) as (_ & _ & _ & _ & _ & _ & Hext1).
    destruct (IH _ _ _ _ Hext1 Hr ym f Hf) as [H0|H1]; [|right; exact H1].
    destruct (String.eqb m ym) eqn:E.
    + apply String.eqb_eq in E. subst ym.
      rewrite PyDictFacts.get_set_same in H0. injection H0 as <-.
      right. exists data, h0, h1. repeat split; assumption.
    + apply String.eqb_neq in E.
      rewrite PyDictFacts.get_set_other in H0 by assumption. left. assumption.
Qed.

End FinancialsLoopHeap.

(** An entry of the financials of a run, traced back to its month. *)
Lemma compute_entry st h agg fin h' ym f :
  heap_extends module_heap h ->
  compute st h = Some (agg, fin, h') ->
  PyDict.get ym fin = Some f ->
  exists data h1 h2,
    heap_extends module_heap h1
    /\ PyDict.get ym agg = Some data
    /\ g_acts data = filter (in_month ym) (ss_acts st)
    /\ month_financials st ym data h1 = Some (f, h2).
Proof.
  intros Hext Hc Hf. rewrite compute_unfold in Hc.
  destruct (aggregated_by_month (ss_acts st)) as [agg0|] eqn:Hagg; [|discriminate].
  destruct (financials_by_month st agg0 h) as [[fin0 h0]|] eqn:Hfin; [|discriminate].
  injection Hc as <- <- <-. unfold financials_by_month in Hfin.
  destruct (financials_fold_origin_heap _ _ _ _ _ _ _ Hext Hfin _ _ Hf)
    as [H0|(data & h1 & h2 & Hext1 & Hd & Hm)]; [discriminate H0|].
  exists data, h1, h2. repeat split; try assumption.
  destruct (aggregated_entry _ _ ym Hagg) as (ms & _ & Hget).
  rewrite Hd in Hget.
  destruct (filter (in_month ym) (ss_acts st)); [discriminate|]. now injection Hget as ->.
Qed.

(** ** Months of a run *)

Lemma dev_fold_rates cfg cfg' : rates cfg = rates cfg' ->
  forall l acc, foldM (dev_step cfg) l acc = foldM (dev_step cfg') l acc.
Proof.
  intros Hr. induction l as [|a l IH]; intros acc; simpl; [reflexivity|].
  unfold dev_step at 1 3. rewrite Hr.
  destruct (PyDict.get (a_type a) ACT_MODELS); simpl; [apply IH | reflexivity].
Qed.

Lemma month_financials_hours st ym data h f h' :
  month_financials st ym data h = Some (f, h') -> f_hours f = g_hours data.
Proof.
  unfold month_financials. destruct (get_month_config st ym h) as [cfg h1].
  destruct (foldM _ _ _); simpl; [|discriminate]. now intros [= <- _].
Qed.

Lemma unregistered_or_all acts :
  Forall (fun a => model_of a <> None) acts
  \/ exists a, In a acts /\ model_of a = None.
Proof.
  induction acts as [|a l [IH|(b & Hb & Hn)]].
  - left. constructor.
  - destruct (model_of a) eqn:E.
    + left. constructor; [congruence | assumption].
    + right. exists a. split; [now left | assumption].
  - right. exists b. split; [now right | assumption].
Qed.

Lemma act_has_entry acts agg a :
  aggregated_by_month acts = Some agg -> In a acts ->
  PyDict.get (year_month (a_date a)) agg <> None.
Proof.
  intros Hagg Ha.
  destruct (aggregated_entry _ _ (year_month (a_date a)) Hagg) as (ms & _ & Hget).
  assert (Hin : In a (filter (in_month (year_month (a_date a))) acts)).
  { apply filter_In. split; [assumption|]. unfold in_month. apply String.eqb_refl. }
  destruct (filter (in_month (year_month (a_date a))) acts); [destruct Hin|].
  rewrite Hget. discriminate.
Qed.

(** X1. The recomputation fails exactly when some act has a shift type that
    is not in the table; otherwise there are financials for exactly the
    months in which some act falls, each carrying the hour sums of the
    aggregate. *)
Theorem compute_months :
  forall (st : SessionState) (h : heap),
    (compute st h = None <-> exists a, In a (ss_acts st) /\ model_of a = None)
    /\ (forall agg fin h', compute st h = Some (agg, fin, h') ->
        forall ym,
          (PyDict.get ym fin <> None <->
             exists a, In a (ss_acts st) /\ year_month (a_date a) = ym)
          /\ option_map f_hours (PyDict.get ym fin)
             = option_map g_hours (PyDict.get ym agg)).
Proof.
  intros st h. rewrite compute_unfold. split.
  - split.
    + intros Hnone. destruct (unregistered_or_all (ss_acts st)) as [Hall|Hex]; [|exact Hex].
      destruct (aggregate_succeeds _ [] Hall) as [agg Hagg].
      fold (aggregated_by_month (ss_acts st)) in Hagg. rewrite Hagg in Hnone.
      destruct (financials_succeed st _ _ h Hagg) as (fin & h' & Hfin).
      rewrite Hfin in Hnone. discriminate.
    + intros (a & Ha & Hn).
      destruct (aggregated_by_month (ss_acts st)) as [agg|] eqn:Hagg; [|reflexivity].
      pose proof (aggregate_models _ _ _ Hagg) as Hall.
      rewrite Forall_forall in Hall. now destruct (Hall a Ha).
  - intros agg fin h'.
    destruct (aggregated_by_month (ss_acts st)) as [agg0|] eqn:Hagg; [|discriminate].
    destruct (financials_by_month st agg0 h) as [[fin0 h0]|] eqn:Hfin; [|discriminate].
    intros [= <- <- <-] ym. unfold financials_by_month in Hfin.
    assert (Hkeys : PyDict.get ym fin0 <> None <-> PyDict.get ym agg0 <> None).
    { split.
      - intros Hf. destruct (PyDict.get ym fin0) as [f|] eqn:Ef; [|congruence].
        destruct (financials_fold_origin _ _ _ _ _ _ _ Hfin _ _ Ef)
          as [H0|(_ & data & _ & _ & Hd & _)]; [discriminate H0|]. congruence.
      - intros Ha. apply (financials_fold_keeps _ _ _ _ _ _ _ Hfin). right.
        now apply sorted_In, PyDictFacts.get_In_keys. }
    split.
    + rewrite Hkeys. split.
      * intros Hg. exact (aggregated_key_act _ _ _ Hagg Hg).
      * intros (a & Ha & <-). exact (act_has_entry _ _ _ Hagg Ha).
    + destruct (PyDict.get ym fin0) as [f|] eqn:Ef.
      * destruct (financials_fold_origin _ _ _ _ _ _ _ Hfin _ _ Ef)
          as [H0|(_ & data & h1 & h2 & Hd & Hm)]; [discriminate H0|].
        rewrite Hd. simpl. f_equal. eapply month_financials_hours; eauto.
      * destruct (PyDict.get ym agg0) eqn:Ea; [|reflexivity].
        exfalso. apply Hkeys; [discriminate | reflexivity].
Qed.

Lemma month_financials_defined st ym data h acc :
  foldM (dev_step DEFAULT_CONFIG_TEMPLATE) (g_acts data) (mkAcc 0.0 0.0 0.0) = Some acc ->
  exists f h', month_financials st ym data h = Some (f, h').
Proof.
  intros Hacc. unfold month_financials.
  pose proof (get_month_config_rates st ym h) as Hr.
  destruct (get_month_config st ym h) as [cfg h1]. cbn [fst] in Hr.
  rewrite (dev_fold_rates _ _ Hr), Hacc. simpl. eexists _, _. reflexivity.
Qed.

(** X2. The accrual lines, deduction lines and net of a month are those of
    the month computed on its own, from its acts alone: acts of other months
    and the order of processing do not change them. *)
Theorem month_lines_local :
  forall (st : SessionState) (h : heap) agg fin h',
    heap_extends module_heap h ->
    compute st h = Some (agg, fin, h') ->
    forall ym f, PyDict.get ym fin = Some f ->
      month_lines st ym (filter (in_month ym) (ss_acts st))
      = Some (f_dev f, f_desc f, f_neto f).
Proof.
  intros st h agg fin h' Hext Hc ym f Hf.
  destruct (compute_entry _ _ _ _ _ _ _ Hext Hc Hf)
    as (data & h1 & h2 & Hext1 & Hd & Hacts & Hm).
  destruct (month_financials_value _ _ _ _ _ _ Hext1 Hm)
    as (acc & Hacc & _ & Hdev & Hdesc & Hneto & _).
  unfold month_lines.
  destruct (month_financials_defined st ym
              (mkAgg (filter (in_month ym) (ss_acts st)) (mkHours 0 0 0 0))
              module_heap acc) as (f0 & h0 & Hm0).
  { cbn [g_acts]. now rewrite <- Hacts. }
  rewrite Hm0. cbn [option_map fst].
  destruct (month_financials_value _ _ _ _ _ _ (ex_intro _ [] eq_refl) Hm0)
    as (acc0 & Hacc0 & _ & Hdev0 & Hdesc0 & Hneto0 & _).
  cbn [g_acts] in Hacc0. rewrite <- Hacts, Hacc in Hacc0. injection Hacc0 as <-.
  assert (Ed : f_dev f0 = f_dev f) by (rewrite Hdev, Hdev0; reflexivity).
  assert (Es : f_desc f0 = f_desc f) by (rewrite Hdesc, Hdesc0, Ed; reflexivity).
  rewrite Hneto, Hneto0, Ed, Es. reflexivity.
Qed.

Lemma month_lines_local_witness :
  match compute (initial_state sample_uuid4) module_heap with
  | Some (_, fin, _) =>
      match PyDict.get "2025-10" fin with
      | Some f =>
          month_lines (initial_state sample_uuid4) "2025-10"
                      (filter (in_month "2025-10") (initial_acts sample_uuid4))
          = Some (f_dev f, f_desc f, f_neto f)
      | None => False
      end
  | None => False
  end.
Proof.
  pose proof (month_lines_local (initial_state sample_uuid4) module_heap) as H.
  destruct (compute (initial_state sample_uuid4) module_heap)
    as [[[agg fin] h']|] eqn:E.
  - specialize (H agg fin h' (ex_intro _ [] eq_refl) eq_refl "2025-10").
    destruct (PyDict.get "2025-10" fin) as [f|] eqn:G.
    + exact (H f eq_refl).
    + vm_compute in E. injection E as _ Efin _. subst fin. discriminate G.
  - vm_compute in E. discriminate E.
Defined.

(** X3. In every month the fixed production is the resolved one, the tax is
    the accrual total times the resolved tax rate, and the two contributions
    and the solidarity quota are those of the month's hardcoded base and
    tranches (else the defaults): they depend neither on the acts nor on what
    the user edited. *)
Theorem deductions_closed_form :
  forall (st : SessionState) (h : heap) agg fin h',
    heap_extends module_heap h ->
    compute st h = Some (agg, fin, h') ->
    forall ym f, PyDict.get ym fin = Some f ->
      devPF (f_dev f) = resolved_prodFija st ym
      /\ desc_IRPF (f_desc f) = devTotal (f_dev f) * resolved_irpf st ym
      /\ desc_CC (f_desc f) = month_base ym * 0.0483
      /\ desc_FP (f_desc f) = month_base ym * 0.0010
      /\ desc_Sol (f_desc f) = cuotSol_of (month_tranches ym).
Proof.
  intros st h agg fin h' Hext Hc ym f Hf.
  destruct (compute_entry _ _ _ _ _ _ _ Hext Hc Hf)
    as (data & h1 & h2 & Hext1 & _ & _ & Hm).
  destruct (month_financials_value _ _ _ _ _ _ Hext1 Hm)
    as (acc & _ & _ & Hdev & Hdesc & _ & _).
  rewrite Hdesc. rewrite Hdev at 1. repeat split.
Qed.

Lemma deductions_closed_form_witness :
  match compute june_state_with_act module_heap with
  | Some (_, fin, _) =>
      match PyDict.get "2025-06" fin with
      | Some f =>
          devPF (f_dev f) = 733.42
          /\ desc_IRPF (f_desc f) = devTotal (f_dev f) * 0.2
          /\ desc_CC (f_desc f) = 2098.15 * 0.0483
          /\ desc_FP (f_desc f) = 2098.15 * 0.0010
          /\ desc_Sol (f_desc f)
             = cuotSol_of [mkTranche 490.95 0.0015; mkTranche 1354.80 0.0017]
      | None => False
      end
  | None => False
  end.
Proof.
  pose proof (deductions_closed_form june_state_with_act module_heap) as H.
  destruct (compute june_state_with_act module_heap) as [[[agg fin] h']|] eqn:E.
  - specialize (H agg fin h' (ex_intro _ [] eq_refl) eq_refl "2025-06").
    destruct (PyDict.get "2025-06" fin) as [f|] eqn:G.
    + exact (H f eq_refl).
    + vm_compute in E. injection E as _ Efin _. subst fin. discriminate G.
  - vm_compute in E. discriminate E.
Defined.

(** ** The month editor *)

Lemma get_month_config_ext st st' ym h :
  ss_global_irpf st = ss_global_irpf st' ->
  user_patch st ym = user_patch st' ym ->
  get_month_config st ym h = get_month_config st' ym h.
Proof.
  unfold user_patch, get_month_config. intros -> Hu.
  destruct (ss_month_configs st) as [mc|], (ss_month_configs st') as [mc'|];
    rewrite ?Hu, <- ?Hu; try reflexivity;
    destruct (PyDict.get ym _); try discriminate; reflexivity.
Qed.

Lemma get_month_config_user_fields st ym h :
  irpf (fst (get_month_config st ym h)) = resolved_irpf st ym
  /\ prodFija (fst (get_month_config st ym h)) = resolved_prodFija st ym.
Proof.
  unfold resolved_irpf, resolved_prodFija, user_patch.
  unfold get_month_config, json_roundtrip, alloc. cbv zeta. cbv beta iota.
  destruct (monthly_overrides_cases ym) as [E|[[_ E]|[[_ E]|[_ E]]]]; rewrite E;
    destruct (ss_month_configs st) as [mc|];
    try destruct (PyDict.get ym mc) as [[[i|] [p|]]|];
    destruct (ss_global_irpf st) as [g|];
    split; reflexivity.
Qed.

Lemma get_month_config_bases st st' ym h :
  bases (fst (get_month_config st ym h)) = bases (fst (get_month_config st' ym h)).
Proof.
  unfold get_month_config, json_roundtrip, alloc. cbv zeta. cbv beta iota.
  destruct (monthly_overrides_cases ym) as [E|[[_ E]|[[_ E]|[_ E]]]]; rewrite E;
    destruct (ss_month_configs st) as [mc|];
    try destruct (PyDict.get ym mc) as [[[i|] [p|]]|];
    destruct (ss_global_irpf st) as [g|];
    destruct (ss_month_configs st') as [mc'|];
    try destruct (PyDict.get ym mc') as [[[i'|] [p'|]]|];
    destruct (ss_global_irpf st') as [g'|];
    reflexivity.
Qed.

Lemma save_month_config_patch sel new_m_irpf new_m_pf st st' :
  save_month_config sel new_m_irpf new_m_pf st = Some st' ->
  user_patch st' sel = Some (mkUser (Some (new_m_irpf / 100.0)) (Some new_m_pf))
  /\ (forall ym, ym <> sel -> user_patch st' ym = user_patch st ym)
  /\ ss_global_irpf st' = ss_global_irpf st
  /\ ss_acts st' = ss_acts st
  /\ ss_normal_overrides st' = ss_normal_overrides st.
Proof.
  unfold save_month_config, user_patch.
  destruct (ss_month_configs st) as [mc|]; simpl; [|discriminate].
  intros [= <-]. cbn [ss_month_configs ss_global_irpf ss_acts ss_normal_overrides].
  split; [|split; [|repeat split]].
  - rewrite !PyDictFacts.get_modify_same. unfold PyDict.contains.
    destruct (PyDict.get sel mc) as [u|] eqn:E.
    + rewrite E. reflexivity.
    + rewrite PyDictFacts.get_set_same. reflexivity.
  - intros ym Hne.
    rewrite !PyDictFacts.get_modify_other by congruence.
    destruct (PyDict.contains sel mc); [reflexivity|].
    apply PyDictFacts.get_set_other. congruence.
Qed.

(** X4. After saving a month in the editor, that month resolves to the saved
    tax rate (percent / 100) and fixed production with its bases unchanged,
    every other month resolves as before, a later change of the global tax
    rate does not reach the saved month, and the acts are untouched. *)
Theorem saved_month_config_resolves :
  forall (sel : string) (new_m_irpf new_m_pf : float) (st st' : SessionState) (h : heap),
    save_month_config sel new_m_irpf new_m_pf st = Some st' ->
    (let cfg := fst (get_month_config st' sel h) in
     irpf cfg = new_m_irpf / 100.0
     /\ prodFija cfg = new_m_pf
     /\ bases cfg = bases (fst (get_month_config st sel h)))
    /\ (forall ym, ym <> sel -> get_month_config st' ym h = get_month_config st ym h)
    /\ (forall g st'', set_global_irpf g st' = Some st'' ->
          irpf (fst (get_month_config st'' sel h)) = new_m_irpf / 100.0)
    /\ ss_acts st' = ss_acts st.
Proof.
  intros sel i p st st' h Hs.
  destruct (save_month_config_patch _ _ _ _ _ Hs) as (Hsel & Hother & Hg & Hacts & _).
  split; [|split; [|split]].
  - cbv zeta. destruct (get_month_config_user_fields st' sel h) as [Hi Hp].
    rewrite Hi, Hp. unfold resolved_irpf, resolved_prodFija. rewrite Hsel.
    repeat split. apply get_month_config_bases.
  - intros ym Hne. apply get_month_config_ext; [assumption | now apply Hother].
  - intros g st'' Hset.
    destruct (get_month_config_user_fields st'' sel h) as [Hi _]. rewrite Hi.
    unfold resolved_irpf.
    assert (Hu : user_patch st'' sel = user_patch st' sel).
    { unfold set_global_irpf in Hset.
      destruct (ss_global_irpf st'); simpl in Hset; [|discriminate].
      destruct (negb _); injection Hset as <-; reflexivity. }
    rewrite Hu, Hsel. reflexivity.
  - exact Hacts.
Qed.

Lemma saved_month_config_resolves_witness :
  exists st',
    save_month_config "2025-06" 20 800 (initial_state sample_uuid4) = Some st'
    /\ (let cfg := fst (get_month_config st' "2025-06" module_heap) in
        irpf cfg = 20 / 100.0 /\ prodFija cfg = 800
        /\ bases cfg
           = bases (fst (get_month_config (initial_state sample_uuid4) "2025-06" module_heap))).
Proof.
  eexists. split; [reflexivity|].
  exact (proj1 (saved_month_config_resolves "2025-06" 20 800
                  (initial_state sample_uuid4) _ module_heap eq_refl)).
Defined.

(** ** Payment months and the typical table *)

Lemma get_In_values {V : Type} k (d : PyDict.t V) v :
  PyDict.get k d = Some v -> In v (map snd d).
Proof.
  induction d as [|[k' v'] r IH]; simpl; [discriminate|].
  destruct (String.eqb k k'); [intros [= <-]; now left | intros H; right; auto].
Qed.

(** X5. Whatever string [next_month_str] is given, when it returns the
    result is a month 01 to 12 of a non-negative year (a month number above
    11 gives January of the next year), so the typical table has an entry for
    it: the 1500.00 fall-back is not used and [normal_val] does not raise. *)
Theorem scheduled_month_typical :
  forall sm pm : string,
    next_month_str sm = Some pm ->
    (exists y m, (0 <= y)%Z /\ (1 <= m <= 12)%Z /\ pm = payment_month (y, m))
    /\ (exists v, typical_of pm = Some v
                  /\ In v (map snd TYPICAL_NORMAL_BY_MONTH))
    /\ (forall ovr chk inp, normal_val pm ovr chk inp <> None).
Proof.
  intros sm pm Hn.
  destruct (next_month_str_range _ _ Hn) as (y & m & Hy & Hm & ->).
  destruct (typical_of_month y m Hy Hm) as (v & Hget & Htyp).
  split; [exists y, m; repeat split; lia|].
  split; [exists v; split; [exact Htyp | eapply get_In_values; eauto]|].
  intros ovr chk inp. eapply typical_normal_val; eauto.
Qed.

Lemma scheduled_month_typical_witness :
  (exists y m, (0 <= y)%Z /\ (1 <= m <= 12)%Z /\ "2026-01" = payment_month (y, m))
  /\ (exists v, typical_of "2026-01" = Some v
                /\ In v (map snd TYPICAL_NORMAL_BY_MONTH))
  /\ (forall ovr chk inp, normal_val "2026-01" ovr chk inp <> None).
Proof. exact (scheduled_month_typical "2025-99" "2026-01" eq_refl). Defined.

(** ** Sessions built through the forms run to the end *)

(** X6. For a session whose acts are the preloaded ones changed only through
    the two entry forms and the delete buttons, the whole recomputation
    returns: aggregation, financials, projection, and the view of every
    payment month, whatever the settings, overrides and widgets. *)
Theorem form_sessions_run :
  forall (uuid4 : nat -> string) (actions : list Action)
         (mc : option (PyDict.t UserConfig)) (ovr : PyDict.t float)
         (g : option float) (h : heap),
    Forall action_ok actions ->
    let st := mkState (acts_after uuid4 actions) mc ovr g in
    exists agg fin h' pay,
      compute st h = Some (agg, fin, h')
      /\ payment_projection st h = Some pay
      /\ forall pm, PyDict.get pm pay <> None ->
           forall ovr' chk inp, payment_view pm pay ovr' chk inp <> None.
Proof.
  intros uuid4 actions mc ovr g h Hok st.
  destruct (form_acts_projection st h) as (agg & fin & h' & pay & Hc & Hp).
  { subst st. cbn [ss_acts]. now apply acts_after_form. }
  exists agg, fin, h', pay. split; [exact Hc|]. split.
  - unfold payment_projection. rewrite Hc. exact Hp.
  - intros pm Hget ovr' chk inp.
    destruct (payments_entry_scheduled _ _ _ _ Hp Hget) as (sm & _ & Hn).
    destruct (next_month_str_range _ _ Hn) as (y & m & Hy & Hm & ->).
    destruct (typical_of_month y m Hy Hm) as (v & _ & Htyp).
    pose proof (typical_normal_val _ _ ovr' chk inp Htyp) as Hnv.
    unfold payment_view.
    destruct (PyDict.get (payment_month (y, m)) pay); [|congruence].
    destruct (normal_val _ ovr' chk inp); [discriminate | congruence].
Qed.

Lemma sample_actions_ok : Forall action_ok sample_actions.
Proof.
  unfold sample_actions. repeat apply Forall_cons; try apply Forall_nil.
  - split; [reflexivity|]. simpl. auto 10.
  - reflexivity.
  - exact I.
  - reflexivity.
Qed.

Lemma form_sessions_run_witness :
  let st := mkState (acts_after sample_uuid4 sample_actions) (Some []) [] (Some 35.0) in
  exists agg fin h' pay,
    compute st module_heap = Some (agg, fin, h')
    /\ payment_projection st module_heap = Some pay
    /\ forall pm, PyDict.get pm pay <> None ->
         forall ovr' chk inp, payment_view pm pay ovr' chk inp <> None.
Proof.
  exact (form_sessions_run sample_uuid4 sample_actions (Some []) [] (Some 35.0)
           module_heap sample_actions_ok).
Defined.

(** ** Special days *)

Lemma special_days_all :
  forallb (fun m =>
    forallb (fun d =>
      Bool.eqb (is_special_date (mkDate 2025 m d)) (is_special_day m d))
      (Z_range 1 31))
    (Z_range 1 12) = true.
Proof. vm_compute. reflexivity. Qed.

Lemma valid_date_day d : valid_date d -> (1 <= d_day d <= 31)%Z.
Proof.
  unfold valid_date, date_new.
  destruct (negb _); [discriminate|].
  destruct (_ && _) eqn:E; [|discriminate]. intros _.
  repeat (apply andb_true_iff in E; destruct E as [E ?]).
  repeat match goal with H : (_ <=? _)%Z = true |- _ => apply Z.leb_le in H end.
  split; [assumption|].
  assert (days_in_month (d_year d) (d_month d) <= 31)%Z; [|lia].
  unfold days_in_month.
  destruct (_ =? 2)%Z; [destruct (is_leap _); lia|].
  destruct (_ || _); lia.
Qed.

Lemma is_special_date_day d :
  valid_date d -> is_special_date d = is_special_day (d_month d) (d_day d).
Proof.
  intros Hv. destruct (valid_date_ranges d Hv) as [_ Hm].
  pose proof (valid_date_day d Hv) as Hd.
  pose proof special_days_all as H.
  rewrite forallb_forall in H.
  specialize (H (d_month d) ltac:(apply Z_range_In; simpl; lia)).
  rewrite forallb_forall in H.
  specialize (H (d_day d) ltac:(apply Z_range_In; simpl; lia)).
  apply Bool.eqb_prop in H. exact H.
Qed.

(** X7. Both forms flag an act special exactly when its date is 1 January,
    6 January, 28 February, 7 October or 25 December, whatever the year. *)
Theorem special_flag_days :
  (forall d, valid_date d ->
     is_special_date d = is_special_day (d_month d) (d_day d))
  /\ (forall uuid4 d d_type drawn acts, valid_date d ->
        add_manual uuid4 d d_type drawn acts
        = (acts ++ [mkAct (uuid4 drawn) (strftime_ymd d) d_type
                          (is_special_day (d_month d) (d_day d))])%list)
  /\ (forall a, bulk_generated a ->
        exists d, valid_date d /\ a_date a = strftime_ymd d
                  /\ a_special a = is_special_day (d_month d) (d_day d)).
Proof.
  split; [exact is_special_date_day|]. split.
  - intros uuid4 d d_type drawn acts Hv. unfold add_manual.
    fold (is_special_date d). now rewrite is_special_date_day.
  - intros a (d & Hd & Hdate & _ & Hs). exists d.
    split; [exact Hd|]. split; [exact Hdate|]. rewrite Hs. now apply is_special_date_day.
Qed.

Lemma special_flag_days_witness :
  is_special_date (mkDate 2031 2 28) = is_special_day 2 28
  /\ add_manual sample_uuid4 (mkDate 2024 2 29) "TARDE" 0 []
     = [mkAct "act-0" "2024-02-29" "TARDE" false].
Proof.
  destruct special_flag_days as (H1 & H2 & _). split.
  - exact (H1 (mkDate 2031 2 28) eq_refl).
  - exact (H2 sample_uuid4 (mkDate 2024 2 29) "TARDE" 0%nat [] eq_refl).
Defined.

(** ** The table of normal-payroll overrides *)

Lemma get_del_other {V : Type} k k' (d : PyDict.t V) :
  k <> k' -> PyDict.get k' (PyDict.del k d) = PyDict.get k' d.
Proof.
  intros Hne. induction d as [|[k0 v0] r IH]; simpl; [reflexivity|].
  destruct (String.eqb k k0) eqn:E; simpl.
  - apply String.eqb_eq in E. subst k0.
    destruct (String.eqb k' k) eqn:E'; [|reflexivity].
    apply String.eqb_eq in E'. congruence.
  - now rewrite IH.
Qed.

Lemma get_del_same {V : Type} k (d : PyDict.t V) :
  NoDup (PyDict.keys d) -> PyDict.get k (PyDict.del k d) = None.
Proof.
  induction d as [|[k0 v0] r IH]; simpl; [reflexivity|].
  intros Hnd. inversion Hnd as [|? ? Hnotin Hr]; subst.
  destruct (String.eqb k k0) eqn:E; simpl.
  - apply String.eqb_eq in E. subst k0.
    destruct (PyDict.get k r) eqn:G; [|reflexivity].
    exfalso. apply Hnotin. apply PyDictFacts.get_In_keys. congruence.
  - rewrite E. now apply IH.
Qed.

Lemma keys_del_incl {V : Type} k (d : PyDict.t V) x :
  In x (PyDict.keys (PyDict.del k d)) -> In x (PyDict.keys d).
Proof.
  induction d as [|[k0 v0] r IH]; simpl; [tauto|].
  destruct (String.eqb k k0); simpl; [auto|]. intros [H|H]; auto.
Qed.

Lemma keys_del_NoDup {V : Type} k (d : PyDict.t V) :
  NoDup (PyDict.keys d) -> NoDup (PyDict.keys (PyDict.del k d)).
Proof.
  induction d as [|[k0 v0] r IH]; simpl; [auto|].
  intros Hnd. inversion Hnd as [|? ? Hnotin Hr]; subst.
  destruct (String.eqb k k0); simpl; [assumption|].
  constructor; [|auto]. intros Hin. apply Hnotin. eapply keys_del_incl; eauto.
Qed.

Lemma keys_set_incl {V : Type} k v (d : PyDict.t V) x :
  In x (PyDict.keys (PyDict.set k v d)) -> x = k \/ In x (PyDict.keys d).
Proof.
  induction d as [|[k0 v0] r IH]; simpl.
  - intros [H|[]]; auto.
  - destruct (String.eqb k k0) eqn:E; simpl.
    + apply String.eqb_eq in E. subst. intros [H|H]; auto.
    + intros [H|H]; auto. destruct (IH H); auto.
Qed.

Lemma keys_set_NoDup {V : Type} k v (d : PyDict.t V) :
  NoDup (PyDict.keys d) -> NoDup (PyDict.keys (PyDict.set k v d)).
Proof.
  induction d as [|[k0 v0] r IH]; simpl.
  - intros _. repeat constructor. simpl. tauto.
  - intros Hnd. inversion Hnd as [|? ? Hnotin Hr]; subst.
    destruct (String.eqb k k0) eqn:E; simpl.
    + apply String.eqb_eq in E. subst. constructor; assumption.
    + apply String.eqb_neq in E. constructor; [|auto].
      intros Hin. destruct (keys_set_incl _ _ _ _ Hin); [congruence | auto].
Qed.

(** X8. One pass of the payment loop for [pm] leaves the overrides of all
    other months as they were and the keys without repetition; with the
    manual box off the entry of [pm] is removed and the typical amount is
    used, with it on either the amount used is stored under [pm] or the table
    is unchanged because the amount equals the current override. *)
Theorem normal_val_table :
  forall (pm : string) (ovr : PyDict.t float) (chk : option bool) (inp : option float)
         (n : float) (ovr' : PyDict.t float),
    NoDup (PyDict.keys ovr) ->
    normal_val pm ovr chk inp = Some (n, ovr') ->
    let current := PyDict.get_default pm 0.0 ovr in
    (forall pm', pm' <> pm -> PyDict.get pm' ovr' = PyDict.get pm' ovr)
    /\ NoDup (PyDict.keys ovr')
    /\ (if widget chk (0 <? current)
        then PyDict.get pm ovr' = Some n
             \/ (ovr' = ovr /\ (n =? current) = true)
        else PyDict.get pm ovr' = None /\ typical_of pm = Some n).
Proof.
  intros pm ovr chk inp n ovr' Hnd. unfold normal_val, typical_of.
  destruct (split "-" pm) as [|x [|mm rest]]; try discriminate.
  cbv zeta.
  destruct (widget chk _).
  - destruct (negb (widget inp _ =? _)) eqn:E; intros [= <- <-].
    + split; [intros pm' Hne; apply PyDictFacts.get_set_other; congruence|].
      split; [now apply keys_set_NoDup|].
      left. apply PyDictFacts.get_set_same.
    + split; [reflexivity|]. split; [assumption|].
      right. split; [reflexivity|]. now apply negb_false_iff in E.
  - intros [= <- <-]. unfold PyDict.contains.
    destruct (PyDict.get pm ovr) eqn:G.
    + split; [intros pm' Hne; apply get_del_other; congruence|].
      split; [now apply keys_del_NoDup|].
      split; [now apply get_del_same | reflexivity].
    + split; [reflexivity|]. split; [assumption|]. split; [assumption | reflexivity].
Qed.

Lemma normal_val_table_witness :
  let ovr := [("2025-11", 1600); ("2025-12", 1500.5)] in
  (forall pm', pm' <> "2025-11" ->
     PyDict.get pm' [("2025-12", 1500.5)] = PyDict.get pm' ovr)
  /\ NoDup (PyDict.keys [("2025-12", 1500.5)])
  /\ (PyDict.get "2025-11" [("2025-12", 1500.5)] = None
      /\ typical_of "2025-11" = Some 1561.30).
Proof.
  refine (normal_val_table "2025-11" [("2025-11", 1600); ("2025-12", 1500.5)]
            (Some false) None 1561.30 [("2025-12", 1500.5)] _ eq_refl).
  repeat constructor; simpl; intuition discriminate.
Defined.

(** ** Deleting acts *)

Lemma delete_act_In to_del acts a :
  In a (delete_act to_del acts) <-> In a acts /\ a_id a <> to_del.
Proof.
  unfold delete_act. rewrite filter_In. split; intros [Hin H]; (split; [assumption|]).
  - apply negb_true_iff, String.eqb_neq in H. exact H.
  - apply negb_true_iff, String.eqb_neq. exact H.
Qed.

Lemma delete_act_other_month to_del ym : forall acts,
  (forall a, In a acts -> in_month ym a = true -> a_id a <> to_del) ->
  filter (in_month ym) (delete_act to_del acts) = filter (in_month ym) acts.
Proof.
  unfold delete_act. induction acts as [|a l IH]; intros H; simpl; [reflexivity|].
  destruct (in_month ym a) eqn:Em.
  - assert (Hne : a_id a <> to_del) by (apply H; [now left | exact Em]).
    apply String.eqb_neq in Hne. rewrite Hne. simpl. rewrite Em.
    f_equal. apply IH. intros b Hb. apply H. now right.
  - destruct (negb _); simpl; rewrite ?Em; apply IH; intros b Hb; apply H; now right.
Qed.

(** X9. Deleting by identifier removes exactly the acts with that
    identifier, cannot make the aggregation fail, and leaves the aggregate
    entry of every month without such an act unchanged. *)
Theorem delete_act_local :
  forall (to_del : string) (acts : list Act) agg,
    aggregated_by_month acts = Some agg ->
    exists agg',
      aggregated_by_month (delete_act to_del acts) = Some agg'
      /\ (forall a, In a (delete_act to_del acts) <-> In a acts /\ a_id a <> to_del)
      /\ (forall ym,
            (forall a, In a acts -> in_month ym a = true -> a_id a <> to_del) ->
            PyDict.get ym agg' = PyDict.get ym agg).
Proof.
  intros to_del acts agg Hagg.
  destruct (aggregate_succeeds (delete_act to_del acts) []) as [agg' Hagg'].
  { pose proof (aggregate_models _ _ _ Hagg) as Hall.
    rewrite Forall_forall in Hall |- *. intros a Ha.
    apply delete_act_In in Ha. now apply Hall. }
  fold (aggregated_by_month (delete_act to_del acts)) in Hagg'.
  exists agg'. split; [exact Hagg'|]. split; [intros a; apply delete_act_In|].
  intros ym Hym.
  destruct (aggregated_entry _ _ ym Hagg) as (ms & Hms & Hget).
  destruct (aggregated_entry _ _ ym Hagg') as (ms' & Hms' & Hget').
  rewrite (delete_act_other_month _ _ _ Hym) in Hms', Hget'.
  rewrite Hms in Hms'. injection Hms' as <-. now rewrite Hget, Hget'.
Qed.

Lemma delete_act_local_witness :
  exists agg agg',
    aggregated_by_month two_ids_acts = Some agg
    /\ aggregated_by_month (delete_act "a" two_ids_acts) = Some agg'
    /\ PyDict.get "2025-11" agg' = PyDict.get "2025-11" agg
    /\ PyDict.get "2025-10" agg' = None.
Proof.
  destruct (aggregated_by_month two_ids_acts) as [agg|] eqn:Hagg;
    [|vm_compute in Hagg; discriminate Hagg].
  destruct (delete_act_local "a" two_ids_acts agg Hagg) as (agg' & Hagg' & _ & Hloc).
  exists agg, agg'. split; [reflexivity|]. split; [exact Hagg'|]. split.
  - apply Hloc. intros a [<-|[<-|[<-|[]]]]; vm_compute; congruence.
  - vm_compute in Hagg'. injection Hagg' as <-. reflexivity.
Defined.

(** ** Bulk entry with day numbers in range *)

Lemma valid_date_fits d :
  valid_date d -> fits_c_int (d_year d) = true /\ fits_c_int (d_month d) = true.
Proof.
  intros Hv. destruct (valid_date_ranges d Hv) as [Hy Hm].
  unfold fits_c_int, C_INT_MIN, C_INT_MAX.
  split; apply andb_true_iff; split; apply Z.leb_le; lia.
Qed.

(** X10. When the text is not empty and every day number fits a C int, the
    bulk form passes over the tokens that are not days of the month, appends
    one act per day that is, in order, with that date and the type of its
    weekday, and reports their number. *)
Theorem bulk_entry_in_range :
  forall (uuid4 : nat -> string) (q_month : PyDate) (q_days : string)
         (drawn : nat) (acts : list Act),
    valid_date q_month ->
    q_days <> "" ->
    days_fit_c_int (days_list q_days) ->
    exists new,
      submitted_auto uuid4 q_month q_days drawn acts
      = ((acts ++ new)%list, Reported (List.length new))
      /\ map a_date new = map strftime_ymd (valid_dates q_month (days_list q_days))
      /\ map a_type new = map classify_date (valid_dates q_month (days_list q_days)).
Proof.
  intros uuid4 q_month q_days drawn acts Hv Hne Hfit.
  destruct (valid_date_fits q_month Hv) as [Hy Hm].
  destruct (bulk_loop_in_range uuid4 q_month (days_list q_days) drawn acts 0 Hfit Hy Hm)
    as (new & Hloop & Hdates & Htypes).
  exists new. unfold submitted_auto.
  destruct q_days as [|c s]; [congruence|].
  rewrite Hloop. simpl. repeat split; assumption.
Qed.

Lemma days_2_31_fit : days_fit_c_int (days_list "2, 31; x, 040 ,8").
Proof.
  replace (days_list "2, 31; x, 040 ,8") with ["2"; "31"; "040"; "8"]
    by (vm_compute; reflexivity).
  unfold days_fit_c_int.
  repeat apply Forall_cons; try apply Forall_nil;
    intros n Hn; vm_compute in Hn; injection Hn as <-; reflexivity.
Qed.

Lemma bulk_entry_in_range_witness :
  exists new,
    submitted_auto sample_uuid4 (mkDate 2025 11 4) "2, 31; x, 040 ,8" 0 []
    = (new, Reported (List.length new))
    /\ map a_date new = ["2025-11-02"; "2025-11-08"]
    /\ map a_type new = ["G_DOMINGO"; "G_SABADO"].
Proof.
  destruct (bulk_entry_in_range sample_uuid4 (mkDate 2025 11 4) "2, 31; x, 040 ,8" 0 []
              eq_refl ltac:(discriminate) days_2_31_fit)
    as (new & Hs & Hd & Ht).
  exists new. split; [exact Hs|]. split.
  - rewrite Hd. vm_compute. reflexivity.
  - rewrite Ht. vm_compute. reflexivity.
Defined.
